(** * Bootstrap of the Vulkan application object

    A shallow embedding of [flutter/vulkan/vulkan_application.cc]: the
    constructor of [VulkanApplication], its accessors, the enumeration of
    physical devices and the selection of the first compatible logical
    device.

    The loaded API (the proc table [vk]) and the other collaborators are
    not part of the file.  They are taken as parameters: a state [W] of the
    driver and, for every entry point, a function that computes the answer
    and the next driver state.  Every call the code makes is recorded,
    with its arguments and its answer, in a log of events, so that
    statements such as "no enumeration call is made" are statements about
    that log. *)

From Stdlib Require Import ZArith List Ascii String Bool Lia.
Import ListNotations.

Local Open Scope string_scope.
Local Open Scope list_scope.
Local Open Scope Z_scope.

(** ** Native types *)

(** [uint32_t]; the only arithmetic on it in this file is the narrowing
    [static_cast<uint32_t>] of a [size_t]. *)
Definition uint32 := N.

Definition static_cast_uint32 (n : nat) : uint32 := (N.of_nat n mod 2 ^ 32)%N.

(** [VkResult] is a C enumeration; [VK_SUCCESS] is its zero. *)
Definition VkResult := Z.
Definition VK_SUCCESS : VkResult := 0.

(** Dispatchable handles are opaque pointers; [VK_NULL_HANDLE] is the null
    pointer. *)
Definition VkInstance := Z.
Definition VkPhysicalDevice := Z.
Definition VK_NULL_HANDLE : Z := 0.

(** [std::string::c_str()] as the callee reads it: a C string ends at its
    first NUL character, so the characters a [std::string] holds after an
    embedded NUL are not seen. *)
Fixpoint c_str (s : string) : string :=
  match s with
  | EmptyString => EmptyString
  | String c rest =>
      if Ascii.eqb c Ascii.zero then EmptyString else String c (c_str rest)
  end.

Definition VK_STRUCTURE_TYPE_APPLICATION_INFO : Z := 0.
Definition VK_STRUCTURE_TYPE_INSTANCE_CREATE_INFO : Z := 1.

Definition VK_MAKE_VERSION (major minor patch : uint32) : uint32 :=
  N.lor (N.lor (N.shiftl major 22) (N.shiftl minor 12)) patch.

Record VkApplicationInfo := {
  app_sType : Z;
  pApplicationName : string;
  applicationVersion : uint32;
  pEngineName : string;
  engineVersion : uint32;
  apiVersion : uint32
}.

Record VkInstanceCreateInfo := {
  sType : Z;
  flags : Z;
  pApplicationInfo : VkApplicationInfo;
  enabledLayerCount : uint32;
  ppEnabledLayerNames : list string;
  enabledExtensionCount : uint32;
  ppEnabledExtensionNames : list string
}.

(** ** Observable interaction *)

(** One constructor per call that leaves the file, carrying the arguments
    and what came back; [FTL_LOG] and [FTL_DLOG] are both [EvLog]. *)
Inductive Event :=
| EvLog (message : string)
| EvCreateInstance (create_info : VkInstanceCreateInfo)
                   (rc : VkResult) (instance : VkInstance)
| EvSetupInstanceProcAddresses (instance : VkInstance) (ok : bool)
| EvDestroyInstance (instance : VkInstance)
| EvEnumeratePhysicalDevices (instance : VkInstance) (count_in : uint32)
                             (capacity : option nat) (rc : VkResult)
                             (count_out : uint32)
                             (written : list VkPhysicalDevice)
| EvNewDebugReport (instance : VkInstance) (valid : bool)
| EvDeleteDebugReport (instance : VkInstance)
| EvNewDevice (physical_device : VkPhysicalDevice) (valid : bool)
| EvDeleteDevice (physical_device : VkPhysicalDevice).

Definition is_EnumeratePhysicalDevices (e : Event) : bool :=
  match e with EvEnumeratePhysicalDevices _ _ _ _ _ _ => true | _ => false end.

(** The instances handed to [vk.DestroyInstance], in call order. *)
Fixpoint destroy_calls (tr : list Event) : list VkInstance :=
  match tr with
  | [] => []
  | EvDestroyInstance i :: tr' => i :: destroy_calls tr'
  | _ :: tr' => destroy_calls tr'
  end.

(** The logical devices constructed, in call order, with the validity each
    reported. *)
Fixpoint device_constructions (tr : list Event)
  : list (VkPhysicalDevice * bool) :=
  match tr with
  | [] => []
  | EvNewDevice h v :: tr' => (h, v) :: device_constructions tr'
  | _ :: tr' => device_constructions tr'
  end.

(** A logical device that was constructed and reported invalid. *)
Definition rejected (h : VkPhysicalDevice) : VkPhysicalDevice * bool :=
  (h, false).

Definition creation_succeeded (tr : list Event) : Prop :=
  exists info i, In (EvCreateInstance info VK_SUCCESS i) tr.

Definition creation_failed (tr : list Event) : Prop :=
  exists info rc i, rc <> VK_SUCCESS /\ In (EvCreateInstance info rc i) tr.

Definition resolution_succeeded (tr : list Event) : Prop :=
  exists i, In (EvSetupInstanceProcAddresses i true) tr.

Definition resolution_failed (tr : list Event) : Prop :=
  exists i, In (EvSetupInstanceProcAddresses i false) tr.

(** ** The embedding *)

Section Embedding.

(** State of the driver behind the proc table. *)
Context {W : Type}.

(** *** Computations that call out *)

(** A computation takes the driver state and gives its value, the next
    driver state and the events it produced. *)
Definition M (A : Type) : Type := W -> A * W * list Event.

Definition ret {A} (a : A) : M A := fun w => (a, w, []).

Definition bind {A B} (m : M A) (k : A -> M B) : M B :=
  fun w =>
    let '(a, w1, t1) := m w in
    let '(b, w2, t2) := k a w1 in
    (b, w2, t1 ++ t2).

Definition emit (e : Event) : M unit := fun w => (tt, w, [e]).

(** A call into a collaborator that may change the driver state. *)
Definition call {A} (f : W -> A * W) (ev : A -> Event) : M A :=
  fun w => let '(a, w1) := f w in (a, w1, [ev a]).

(** A read-only query. *)
Definition query {A} (f : W -> A) : M A := fun w => (f w, w, []).

Definition value_of {A} (r : A * W * list Event) : A := fst (fst r).
Definition state_of {A} (r : A * W * list Event) : W := snd (fst r).
Definition events_of {A} (r : A * W * list Event) : list Event := snd r.

Notation "x <- m ;; k" := (bind m (fun x => k))
  (at level 61, m at next level, right associativity).
Notation "m ;;; k" := (bind m (fun _ => k))
  (at level 61, right associativity).

(** *** Collaborators *)

(** The entry points of [VulkanProcTable] this file calls.  For
    [EnumeratePhysicalDevices] the arguments are the instance, the value
    of [*pPhysicalDeviceCount] on entry and the capacity of the buffer
    ([None] for a null [pPhysicalDevices]); the answer is the status, the
    value left in [*pPhysicalDeviceCount] and the handles written from
    the start of the buffer. *)
Record VulkanProcTable := {
  CreateInstance :
    VkInstanceCreateInfo -> W -> (VkResult * VkInstance) * W;
  SetupInstanceProcAddresses : VkInstance -> W -> bool * W;
  DestroyInstance : VkInstance -> W -> unit * W;
  EnumeratePhysicalDevices :
    VkInstance -> uint32 -> option nat ->
    W -> (VkResult * uint32 * list VkPhysicalDevice) * W
}.

(** What the file uses of [vulkan_utilities.h], [vulkan_debug_report.h]
    and [vulkan_device.h], none of which is among the sources: the
    process-wide toggle, the capability queries (read-only), and the
    constructors of the two collaborating classes, each answering with
    the validity of the object it built. *)
Record Collaborators := {
  IsDebuggingEnabled : bool;
  DebugExtensionSupported : W -> bool;
  DebugExtensionName : string;
  InstanceLayersToEnable : W -> list string;
  VulkanDebugReport_new : VkInstance -> W -> bool * W;
  VulkanDebugReport_delete : VkInstance -> W -> unit * W;
  VulkanDevice_new : VkPhysicalDevice -> W -> bool * W;
  VulkanDevice_delete : VkPhysicalDevice -> W -> unit * W
}.

Record VulkanDebugReport := {
  report_instance : VkInstance;
  report_valid : bool
}.

Record VulkanDevice := {
  device_handle : VkPhysicalDevice;
  device_valid : bool
}.

(** *** Scoped handle *)

(** Modelled from the spec: [VulkanHandle] ([vulkan_handle.h] is not
    among the sources).  A handle and the release function captured at
    construction. *)
Record VulkanHandle := {
  handle_ : Z;
  disposer_ : option (Z -> M unit)
}.

(** Modelled from the spec: the default-constructed handle holds the
    null sentinel and nothing to run. *)
Definition VulkanHandle_default : VulkanHandle :=
  {| handle_ := VK_NULL_HANDLE; disposer_ := None |}.

(** Modelled from the spec: the destructor of [VulkanHandle]. "If still
    holding a non-null handle, invokes the releaser exactly once, then
    clears state"; on the null sentinel it is a no-op. *)
Definition VulkanHandle_destroy (h : VulkanHandle) : M VulkanHandle :=
  if handle_ h =? VK_NULL_HANDLE then ret VulkanHandle_default
  else
    match disposer_ h with
    | Some release => release (handle_ h)
    | None => ret tt
    end ;;;
    ret VulkanHandle_default.

(** Modelled from the spec: [VulkanHandle::ReleaseOwnership]. "Returns
    the raw handle to the caller and clears internal state so
    destruction becomes a no-op." *)
Definition ReleaseOwnership (h : VulkanHandle) : Z * VulkanHandle :=
  (handle_ h, VulkanHandle_default).

(** Modelled from the spec: assignment to a [VulkanHandle]. The value
    held so far ends its life as under the destructor, then the new
    handle and releaser are stored. *)
Definition VulkanHandle_assign (old new : VulkanHandle) : M VulkanHandle :=
  VulkanHandle_destroy old ;;; ret new.

(** *** The application object *)

Record VulkanApplication := {
  instance_ : VulkanHandle;
  api_version_ : uint32;
  debug_report_ : option VulkanDebugReport;
  valid_ : bool
}.

Variable vk : VulkanProcTable.
Variable env : Collaborators.

(** [VK_CALL_LOG_ERROR(expression)] evaluates the call once and yields
    what it returned; the text the macro logs on an error status is not
    part of this file. *)
Definition VK_CALL_LOG_ERROR {A} (m : M A) : M A := m.

(** The lambda stored at line 89. *)
Definition instance_disposer (i : VkInstance) : M unit :=
  emit (EvLog "Destroying Vulkan instance") ;;;
  call (DestroyInstance vk i) (fun _ => EvDestroyInstance i).

Definition make_application_info (application_name : string)
    (application_version api_version : uint32) : VkApplicationInfo :=
  {| app_sType := VK_STRUCTURE_TYPE_APPLICATION_INFO;
     pApplicationName := c_str application_name;
     applicationVersion := application_version;
     pEngineName := "FlutterEngine";
     engineVersion := VK_MAKE_VERSION 1%N 0%N 0%N;
     apiVersion := api_version |}.

Definition make_create_info (info : VkApplicationInfo)
    (enabled_layers enabled_extensions : list string)
  : VkInstanceCreateInfo :=
  {| sType := VK_STRUCTURE_TYPE_INSTANCE_CREATE_INFO;
     flags := 0;
     pApplicationInfo := info;
     enabledLayerCount := static_cast_uint32 (List.length enabled_layers);
     ppEnabledLayerNames := map c_str enabled_layers;
     enabledExtensionCount :=
       static_cast_uint32 (List.length enabled_extensions);
     ppEnabledExtensionNames := map c_str enabled_extensions |}.

(** [IsDebuggingEnabled() && VulkanDebugReport::DebugExtensionSupported(vk)]:
    the second operand is evaluated only when the first is true. *)
Definition enable_instance_debugging : M bool :=
  if IsDebuggingEnabled env then query (DebugExtensionSupported env)
  else ret false.

(** Lines 94-103: the attachment is kept only when it reports valid;
    otherwise the [unique_ptr] goes out of scope and deletes it. *)
Definition attach_debug_report (instance : VulkanHandle)
  : M (option VulkanDebugReport) :=
  valid <- call (VulkanDebugReport_new env (handle_ instance))
                (EvNewDebugReport (handle_ instance)) ;;
  if negb valid then
    emit (EvLog "Vulkan debugging was enabled but could not be setup for this instance.") ;;;
    call (VulkanDebugReport_delete env (handle_ instance))
         (fun _ => EvDeleteDebugReport (handle_ instance)) ;;;
    ret None
  else
    emit (EvLog "Debug reporting is enabled.") ;;;
    ret (Some {| report_instance := handle_ instance;
                 report_valid := valid |}).

(** The constructor, lines 16-106. *)
Definition VulkanApplication_new (application_name : string)
    (enabled_extensions : list string)
    (application_version api_version : uint32) : M VulkanApplication :=
  let this :=
    {| instance_ := VulkanHandle_default;
       api_version_ := api_version;
       debug_report_ := None;
       valid_ := false |} in
  debugging <- enable_instance_debugging ;;
  let enabled_extensions :=
    if debugging : bool
    then enabled_extensions ++ [DebugExtensionName env]
    else enabled_extensions in
  enabled_layers <- query (InstanceLayersToEnable env) ;;
  let info :=
    make_application_info application_name application_version
                          (api_version_ this) in
  let create_info :=
    make_create_info info enabled_layers enabled_extensions in
  created <- VK_CALL_LOG_ERROR
               (call (CreateInstance vk create_info)
                  (fun r => EvCreateInstance create_info (fst r) (snd r))) ;;
  let instance := snd created in
  if negb (fst created =? VK_SUCCESS) then
    emit (EvLog "Could not create application instance.") ;;;
    ret this
  else
    ok <- call (SetupInstanceProcAddresses vk instance)
               (EvSetupInstanceProcAddresses instance) ;;
    if negb ok then
      emit (EvLog "Could not setup instance proc addresses.") ;;;
      ret this
    else
      wrapped <- VulkanHandle_assign (instance_ this)
                   {| handle_ := instance;
                      disposer_ := Some instance_disposer |} ;;
      report <- (if debugging : bool
                 then attach_debug_report wrapped
                 else ret None) ;;
      ret {| instance_ := wrapped;
             api_version_ := api_version_ this;
             debug_report_ := report;
             valid_ := true |}.

Definition IsValid (this : VulkanApplication) : bool := valid_ this.

Definition GetAPIVersion (this : VulkanApplication) : uint32 :=
  api_version_ this.

Definition GetInstance (this : VulkanApplication) : VulkanHandle :=
  instance_ this.

Definition ReleaseInstanceOwnership (this : VulkanApplication)
  : VulkanApplication :=
  {| instance_ := snd (ReleaseOwnership (instance_ this));
     api_version_ := api_version_ this;
     debug_report_ := debug_report_ this;
     valid_ := valid_ this |}.

(** *** Enumeration of the physical devices *)

(** The buffer after the driver has written [written] from its start:
    the driver is given the capacity and stays within it, and the slots
    it does not reach keep what [resize] put there. *)
Definition store_handles (written buffer : list VkPhysicalDevice)
  : list VkPhysicalDevice :=
  firstn (List.length buffer) written
  ++ skipn (List.length written) buffer.

Definition enumerate (instance : VkInstance) (count_in : uint32)
    (capacity : option nat)
  : M (VkResult * uint32 * list VkPhysicalDevice) :=
  call (EnumeratePhysicalDevices vk instance count_in capacity)
       (fun r => EvEnumeratePhysicalDevices instance count_in capacity
                   (fst (fst r)) (snd (fst r)) (snd r)).

(** Lines 126-155. *)
Definition GetPhysicalDevices (this : VulkanApplication)
  : M (list VkPhysicalDevice) :=
  if negb (IsValid this) then ret []
  else
    let device_count : uint32 := 0%N in
    first <- VK_CALL_LOG_ERROR
               (enumerate (handle_ (instance_ this)) device_count None) ;;
    let device_count := snd (fst first) in
    if negb (fst (fst first) =? VK_SUCCESS) then
      emit (EvLog "Could not enumerate physical device.") ;;;
      ret []
    else if (device_count =? 0)%N then
      emit (EvLog "No physical devices found.") ;;;
      ret []
    else
      let physical_devices :=
        repeat VK_NULL_HANDLE (N.to_nat device_count) in
      second <- VK_CALL_LOG_ERROR
                  (enumerate (handle_ (instance_ this)) device_count
                             (Some (List.length physical_devices))) ;;
      let physical_devices := store_handles (snd second) physical_devices in
      if negb (fst (fst second) =? VK_SUCCESS) then
        emit (EvLog "Could not enumerate physical device.") ;;;
        ret []
      else ret physical_devices.

(** *** Selection of the logical device *)

(** The loop of lines 159-164 over the handles still to be tried, and
    what follows it.  A device that reports invalid is deleted when its
    [unique_ptr] goes out of scope at the end of the iteration. *)
Fixpoint first_compatible (handles : list VkPhysicalDevice)
  : M (option VulkanDevice) :=
  match handles with
  | [] =>
      emit (EvLog "Could not acquire compatible logical device.") ;;;
      ret None
  | device_handle :: rest =>
      valid <- call (VulkanDevice_new env device_handle)
                    (EvNewDevice device_handle) ;;
      if valid : bool then
        ret (Some {| device_handle := device_handle;
                     device_valid := valid |})
      else
        call (VulkanDevice_delete env device_handle)
             (fun _ => EvDeleteDevice device_handle) ;;;
        first_compatible rest
  end.

Definition AcquireFirstCompatibleLogicalDevice (this : VulkanApplication)
  : M (option VulkanDevice) :=
  handles <- GetPhysicalDevices this ;;
  first_compatible handles.

(** *** End of life *)

(** Modelled from the spec: the defaulted destructor ends the members'
    lives in an order fixed by [vulkan_application.h], which is not among
    the sources; the attachment is "destroyed before or alongside the
    Instance it is attached to". *)
Definition VulkanApplication_delete (this : VulkanApplication) : M unit :=
  match debug_report_ this with
  | Some report =>
      call (VulkanDebugReport_delete env (report_instance report))
           (fun _ => EvDeleteDebugReport (report_instance report))
  | None => ret tt
  end ;;;
  VulkanHandle_destroy (instance_ this) ;;;
  ret tt.

(** *** A client of the object *)

(** The public member functions, as a client may call them in any
    order. *)
Inductive Op :=
| OpIsValid
| OpGetAPIVersion
| OpGetInstance
| OpReleaseInstanceOwnership
| OpGetPhysicalDevices
| OpAcquireFirstCompatibleLogicalDevice.

Definition is_release (op : Op) : bool :=
  match op with OpReleaseInstanceOwnership => true | _ => false end.

(** One call; the object afterwards (only the transfer of ownership
    changes it; what the call returns stays with the client). *)
Definition step (op : Op) (this : VulkanApplication)
  : M VulkanApplication :=
  match op with
  | OpIsValid | OpGetAPIVersion | OpGetInstance => ret this
  | OpReleaseInstanceOwnership => ret (ReleaseInstanceOwnership this)
  | OpGetPhysicalDevices => GetPhysicalDevices this ;;; ret this
  | OpAcquireFirstCompatibleLogicalDevice =>
      AcquireFirstCompatibleLogicalDevice this ;;; ret this
  end.

Fixpoint run (ops : list Op) (this : VulkanApplication)
  : M VulkanApplication :=
  match ops with
  | [] => ret this
  | op :: ops' => this' <- step op this ;; run ops' this'
  end.

(** Construction, any calls, destruction. *)
Definition lifetime (application_name : string)
    (enabled_extensions : list string)
    (application_version api_version : uint32) (ops : list Op) : M unit :=
  this <- VulkanApplication_new application_name enabled_extensions
            application_version api_version ;;
  this <- run ops this ;;
  VulkanApplication_delete this.

End Embedding.

Arguments VulkanProcTable W : clear implicits.
Arguments Collaborators W : clear implicits.
Arguments VulkanHandle W : clear implicits.
Arguments VulkanApplication W : clear implicits.

(** ** A scripted driver *)

(** A test double: every entry point answers from a fixed script, and the
    driver state counts the calls received. *)
Module Scripted.

Record Script := {
  debugging_enabled : bool;
  extension_supported : bool;
  layers : list string;
  create_answer : VkResult * VkInstance;
  setup_answer : bool;
  count_answer : VkResult * uint32;
  fill_answer : VkResult * uint32 * list VkPhysicalDevice;
  report_answer : bool;
  device_answer : VkPhysicalDevice -> bool
}.

Definition vk (s : Script) : VulkanProcTable nat :=
  {| CreateInstance := fun _ n => (create_answer s, S n);
     SetupInstanceProcAddresses := fun _ n => (setup_answer s, S n);
     DestroyInstance := fun _ n => (tt, S n);
     EnumeratePhysicalDevices := fun _ _ capacity n =>
       match capacity with
       | None => (count_answer s, [], S n)
       | Some _ => (fill_answer s, S n)
       end |}.

Definition env (s : Script) : Collaborators nat :=
  {| IsDebuggingEnabled := debugging_enabled s;
     DebugExtensionSupported := fun _ => extension_supported s;
     DebugExtensionName := "VK_EXT_debug_report";
     InstanceLayersToEnable := fun _ => layers s;
     VulkanDebugReport_new := fun _ n => (report_answer s, S n);
     VulkanDebugReport_delete := fun _ n => (tt, S n);
     VulkanDevice_new := fun h n => (device_answer s h, S n);
     VulkanDevice_delete := fun _ n => (tt, S n) |}.

(** Everything succeeds; three devices, of which only the second (handle
    [20]) is compatible; the fill call reports a count that differs from
    the first call's. *)
Definition healthy : Script :=
  {| debugging_enabled := true;
     extension_supported := true;
     layers := [];
     create_answer := (VK_SUCCESS, 7);
     setup_answer := true;
     count_answer := (VK_SUCCESS, 3%N);
     fill_answer := (VK_SUCCESS, 2%N, [10; 20; 30]);
     report_answer := true;
     device_answer := fun h => h =? 20 |}.

Definition with_create (a : VkResult * VkInstance) (s : Script) : Script :=
  {| debugging_enabled := debugging_enabled s;
     extension_supported := extension_supported s;
     layers := layers s;
     create_answer := a;
     setup_answer := setup_answer s;
     count_answer := count_answer s;
     fill_answer := fill_answer s;
     report_answer := report_answer s;
     device_answer := device_answer s |}.

Definition with_setup (a : bool) (s : Script) : Script :=
  {| debugging_enabled := debugging_enabled s;
     extension_supported := extension_supported s;
     layers := layers s;
     create_answer := create_answer s;
     setup_answer := a;
     count_answer := count_answer s;
     fill_answer := fill_answer s;
     report_answer := report_answer s;
     device_answer := device_answer s |}.


Definition with_fill (a : VkResult * uint32 * list VkPhysicalDevice)
    (s : Script) : Script :=
  {| debugging_enabled := debugging_enabled s;
     extension_supported := extension_supported s;
     layers := layers s;
     create_answer := create_answer s;
     setup_answer := setup_answer s;
     count_answer := count_answer s;
     fill_answer := a;
     report_answer := report_answer s;
     device_answer := device_answer s |}.

(** Instance creation fails. *)
Definition no_instance : Script := with_create (-3, 0) healthy.

(** Instance creation gives the handle [7]; proc-address resolution
    fails. *)
Definition no_procs : Script := with_setup false healthy.


(** The fill call writes two handles into a buffer of three and leaves
    the count at five. *)
Definition short_fill : Script :=
  with_fill (VK_SUCCESS, 5%N, [10; 20]) healthy.

(** Instance creation reports success and leaves the null handle. *)
Definition null_instance : Script := with_create (VK_SUCCESS, 0) healthy.

(** The fill call succeeds, writes nothing and reports zero devices. *)
Definition empty_fill : Script := with_fill (VK_SUCCESS, 0%N, []) healthy.

Definition version : uint32 := VK_MAKE_VERSION 1%N 0%N 0%N.

(** The create info the constructor passes for [build]. *)
Definition build_info : VkInstanceCreateInfo :=
  make_create_info (make_application_info "app" 1%N version) []
                   ["VK_KHR_surface"; "VK_EXT_debug_report"].

(** The object built against a script, from a fresh driver. *)
Definition build (s : Script) : VulkanApplication nat * nat * list Event :=
  VulkanApplication_new (vk s) (env s) "app" ["VK_KHR_surface"] 1%N
                        version 0%nat.

(** A whole life against a script: construction, the calls [ops],
    destruction. *)
Definition life (s : Script) (ops : list Op) : unit * nat * list Event :=
  lifetime (vk s) (env s) "app" ["VK_KHR_surface"] 1%N version ops 0%nat.

Definition app (s : Script) : VulkanApplication nat := value_of (build s).

End Scripted.

(** ** The shapes an interaction can take *)

Section Outcomes.

Context {W : Type}.
Variable vk : VulkanProcTable W.
Variable env : Collaborators W.

(** What the constructor decides before it calls the driver. *)
Definition diagnostics_wanted (w : W) : bool :=
  IsDebuggingEnabled env && DebugExtensionSupported env w.

(** The three ways lines 94-103 can go for the instance [i]. *)
Inductive attachment (i : VkInstance)
  : bool -> list Event -> option VulkanDebugReport -> Prop :=
| attachment_not_requested :
    attachment i false [] None
| attachment_kept :
    attachment i true
      [EvNewDebugReport i true; EvLog "Debug reporting is enabled."]
      (Some {| report_instance := i; report_valid := true |})
| attachment_discarded :
    attachment i true
      [EvNewDebugReport i false;
       EvLog "Vulkan debugging was enabled but could not be setup for this instance.";
       EvDeleteDebugReport i]
      None.

(** The three ways the constructor can end: the events it produced and
    the object it left. *)
Inductive constructed (api_version : uint32) (debugging : bool)
    (create_info : VkInstanceCreateInfo)
  : list Event -> VulkanApplication W -> Prop :=
| constructed_creation_failed rc i :
    rc <> VK_SUCCESS ->
    constructed api_version debugging create_info
      [EvCreateInstance create_info rc i;
       EvLog "Could not create application instance."]
      {| instance_ := VulkanHandle_default;
         api_version_ := api_version;
         debug_report_ := None;
         valid_ := false |}
| constructed_resolution_failed i :
    constructed api_version debugging create_info
      [EvCreateInstance create_info VK_SUCCESS i;
       EvSetupInstanceProcAddresses i false;
       EvLog "Could not setup instance proc addresses."]
      {| instance_ := VulkanHandle_default;
         api_version_ := api_version;
         debug_report_ := None;
         valid_ := false |}
| constructed_valid i tr report :
    attachment i debugging tr report ->
    constructed api_version debugging create_info
      (EvCreateInstance create_info VK_SUCCESS i
       :: EvSetupInstanceProcAddresses i true :: tr)
      {| instance_ := {| handle_ := i;
                         disposer_ := Some (instance_disposer vk) |};
         api_version_ := api_version;
         debug_report_ := report;
         valid_ := true |}.

(** The four ways [GetPhysicalDevices] can go on a valid object whose
    instance is [i]: the events it produced and the sequence it
    returned. *)
Inductive enumerated (i : VkInstance)
  : list Event -> list VkPhysicalDevice -> Prop :=
| enumerated_count_failed rc n wr :
    rc <> VK_SUCCESS ->
    enumerated i
      [EvEnumeratePhysicalDevices i 0%N None rc n wr;
       EvLog "Could not enumerate physical device."]
      []
| enumerated_no_devices wr :
    enumerated i
      [EvEnumeratePhysicalDevices i 0%N None VK_SUCCESS 0%N wr;
       EvLog "No physical devices found."]
      []
| enumerated_fill_failed n wr rc n' written :
    n <> 0%N ->
    rc <> VK_SUCCESS ->
    enumerated i
      [EvEnumeratePhysicalDevices i 0%N None VK_SUCCESS n wr;
       EvEnumeratePhysicalDevices i n (Some (N.to_nat n)) rc n' written;
       EvLog "Could not enumerate physical device."]
      []
| enumerated_filled n wr n' written :
    n <> 0%N ->
    enumerated i
      [EvEnumeratePhysicalDevices i 0%N None VK_SUCCESS n wr;
       EvEnumeratePhysicalDevices i n (Some (N.to_nat n)) VK_SUCCESS n'
                                  written]
      (store_handles written (repeat VK_NULL_HANDLE (N.to_nat n))).

(** The enumeration calls of a log. *)
Definition enumeration_calls (tr : list Event) : list Event :=
  filter is_EnumeratePhysicalDevices tr.

Definition enumeration_failed (tr : list Event) : Prop :=
  exists i c cap rc n wr,
    rc <> VK_SUCCESS /\ In (EvEnumeratePhysicalDevices i c cap rc n wr) tr.

Definition zero_devices_reported (tr : list Event) : Prop :=
  exists i c wr,
    In (EvEnumeratePhysicalDevices i c None VK_SUCCESS 0%N wr) tr.

(** The calls of a log as calls on the driver: [performed w tr w'] holds
    when the calls of [tr], made in this order on the driver in state
    [w], receive the answers the log records and leave the driver in
    state [w'].  Logging does not reach the driver. *)
Inductive performed : W -> list Event -> W -> Prop :=
| performed_nothing w :
    performed w [] w
| performed_Log message w tr w' :
    performed w tr w' ->
    performed w (EvLog message :: tr) w'
| performed_CreateInstance info rc i w w1 tr w' :
    CreateInstance vk info w = (rc, i, w1) ->
    performed w1 tr w' ->
    performed w (EvCreateInstance info rc i :: tr) w'
| performed_SetupInstanceProcAddresses i ok w w1 tr w' :
    SetupInstanceProcAddresses vk i w = (ok, w1) ->
    performed w1 tr w' ->
    performed w (EvSetupInstanceProcAddresses i ok :: tr) w'
| performed_DestroyInstance i w w1 tr w' :
    DestroyInstance vk i w = (tt, w1) ->
    performed w1 tr w' ->
    performed w (EvDestroyInstance i :: tr) w'
| performed_EnumeratePhysicalDevices i c capacity rc n written w w1 tr w' :
    EnumeratePhysicalDevices vk i c capacity w = (rc, n, written, w1) ->
    performed w1 tr w' ->
    performed w (EvEnumeratePhysicalDevices i c capacity rc n written :: tr)
              w'
| performed_NewDebugReport i valid w w1 tr w' :
    VulkanDebugReport_new env i w = (valid, w1) ->
    performed w1 tr w' ->
    performed w (EvNewDebugReport i valid :: tr) w'
| performed_DeleteDebugReport i w w1 tr w' :
    VulkanDebugReport_delete env i w = (tt, w1) ->
    performed w1 tr w' ->
    performed w (EvDeleteDebugReport i :: tr) w'
| performed_NewDevice h valid w w1 tr w' :
    VulkanDevice_new env h w = (valid, w1) ->
    performed w1 tr w' ->
    performed w (EvNewDevice h valid :: tr) w'
| performed_DeleteDevice h w w1 tr w' :
    VulkanDevice_delete env h w = (tt, w1) ->
    performed w1 tr w' ->
    performed w (EvDeleteDevice h :: tr) w'.

(** A computation whose log is the calls it made, whatever the state it
    starts from. *)
Definition faithful {A} (m : M A) : Prop :=
  forall w, performed w (events_of (m w)) (state_of (m w)).

(** An object whose instance handle, if it has a release function, has a
    faithful one. *)
Definition releases_faithfully (this : VulkanApplication W) : Prop :=
  match disposer_ (instance_ this) with
  | Some release => forall i, faithful (release i)
  | None => True
  end.

(** The create info the constructor builds from its arguments in the
    driver state [w]. *)
Definition create_info_of (application_name : string)
    (enabled_extensions : list string)
    (application_version api_version : uint32) (w : W)
  : VkInstanceCreateInfo :=
  make_create_info
    (make_application_info application_name application_version api_version)
    (InstanceLayersToEnable env w)
    (if diagnostics_wanted w
     then enabled_extensions ++ [DebugExtensionName env]
     else enabled_extensions).

(** The logical device the loop returns for the first handle that
    [valid_of] accepts. *)
Definition first_accepted (valid_of : VkPhysicalDevice -> bool)
    (handles : list VkPhysicalDevice) : option VulkanDevice :=
  match find valid_of handles with
  | Some h => Some {| device_handle := h; device_valid := true |}
  | None => None
  end.

End Outcomes.

(** ** A recording driver *)

(** A second test double: the driver state is the list of create infos
    that [CreateInstance] has received, in call order.  Creation always
    succeeds with the handle [7]; diagnostics are switched off. *)
Module Recorder.

Definition vk : VulkanProcTable (list VkInstanceCreateInfo) :=
  {| CreateInstance := fun info seen => ((VK_SUCCESS, 7), seen ++ [info]);
     SetupInstanceProcAddresses := fun _ seen => (true, seen);
     DestroyInstance := fun _ seen => (tt, seen);
     EnumeratePhysicalDevices := fun _ _ _ seen =>
       ((VK_SUCCESS, 0%N, []), seen) |}.

Definition env : Collaborators (list VkInstanceCreateInfo) :=
  {| IsDebuggingEnabled := false;
     DebugExtensionSupported := fun _ => false;
     DebugExtensionName := "VK_EXT_debug_report";
     InstanceLayersToEnable := fun _ => [];
     VulkanDebugReport_new := fun _ seen => (false, seen);
     VulkanDebugReport_delete := fun _ seen => (tt, seen);
     VulkanDevice_new := fun _ seen => (false, seen);
     VulkanDevice_delete := fun _ seen => (tt, seen) |}.

(** A name that holds an embedded NUL after its second character. *)
Definition cut_name : string :=
  String "a"%char
    (String "b"%char
       (String Ascii.zero (String "c"%char (String "d"%char "")))).

(** The extension names the driver has received, one list per
    [CreateInstance] call, after a construction that requests
    [enabled_extensions]. *)
Definition received (enabled_extensions : list string)
  : list (list string) :=
  map ppEnabledExtensionNames
      (state_of (VulkanApplication_new vk env "app" enabled_extensions
                   1%N 1%N [])).

End Recorder.

(** ** Further observers of a log *)

(** The calls to [vk.CreateInstance], in call order, with their answers. *)
Fixpoint create_calls (tr : list Event)
  : list (VkInstanceCreateInfo * VkResult * VkInstance) :=
  match tr with
  | [] => []
  | EvCreateInstance info rc i :: tr' => (info, rc, i) :: create_calls tr'
  | _ :: tr' => create_calls tr'
  end.

(** The calls to [vk.SetupInstanceProcAddresses], with their answers. *)
Fixpoint setup_calls (tr : list Event) : list (VkInstance * bool) :=
  match tr with
  | [] => []
  | EvSetupInstanceProcAddresses i ok :: tr' => (i, ok) :: setup_calls tr'
  | _ :: tr' => setup_calls tr'
  end.

(** The debug reports constructed, with the validity each reported. *)
Fixpoint report_constructions (tr : list Event) : list (VkInstance * bool) :=
  match tr with
  | [] => []
  | EvNewDebugReport i v :: tr' => (i, v) :: report_constructions tr'
  | _ :: tr' => report_constructions tr'
  end.

(** The logical devices deleted, in call order. *)
Fixpoint device_deletions (tr : list Event) : list VkPhysicalDevice :=
  match tr with
  | [] => []
  | EvDeleteDevice h :: tr' => h :: device_deletions tr'
  | _ :: tr' => device_deletions tr'
  end.

(** What each enumeration call was given: the instance, the count on
    entry and the capacity of the buffer. *)
Fixpoint enumeration_requests (tr : list Event)
  : list (VkInstance * uint32 * option nat) :=
  match tr with
  | [] => []
  | EvEnumeratePhysicalDevices i c capacity _ _ _ :: tr' =>
      (i, c, capacity) :: enumeration_requests tr'
  | _ :: tr' => enumeration_requests tr'
  end.

Definition is_EvLog (e : Event) : bool :=
  match e with EvLog _ => true | _ => false end.

Definition is_rejected (p : VkPhysicalDevice * bool) : bool := negb (snd p).

Definition has_report {W} (this : VulkanApplication W) : bool :=
  match debug_report_ this with Some _ => true | None => false end.

(** ** Sanity checks on the scripted driver *)

Example healthy_is_valid :
  IsValid (Scripted.app Scripted.healthy) = true.
Proof. reflexivity. Qed.

Example healthy_devices :
  value_of (GetPhysicalDevices (Scripted.vk Scripted.healthy)
              (Scripted.app Scripted.healthy) 5%nat) = [10; 20; 30].
Proof. reflexivity. Qed.

Example healthy_selects_second :
  value_of (AcquireFirstCompatibleLogicalDevice
              (Scripted.vk Scripted.healthy) (Scripted.env Scripted.healthy)
              (Scripted.app Scripted.healthy) 5%nat)
  = Some {| device_handle := 20; device_valid := true |}.
Proof. reflexivity. Qed.

Example healthy_lifetime_destroys_once :
  destroy_calls
    (events_of (lifetime (Scripted.vk Scripted.healthy)
                  (Scripted.env Scripted.healthy) "app" [] 1%N 1%N
                  [OpGetPhysicalDevices; OpIsValid] 0%nat)) = [7].
Proof. reflexivity. Qed.

(** ** Running computations *)

Section Running.

Context {W : Type}.
Variable vk : VulkanProcTable W.
Variable env : Collaborators W.

Lemma events_bind {A B} (m : M A) (k : A -> M B) (w : W) :
  events_of (bind m k w)
  = events_of (m w) ++ events_of (k (value_of (m w)) (state_of (m w))).
Proof.
  unfold bind, events_of, value_of, state_of.
  destruct (m w) as [[a w1] t1]; simpl.
  destruct (k a w1) as [[b w2] t2]; reflexivity.
Qed.

Lemma value_bind {A B} (m : M A) (k : A -> M B) (w : W) :
  value_of (bind m k w) = value_of (k (value_of (m w)) (state_of (m w))).
Proof.
  unfold bind, events_of, value_of, state_of.
  destruct (m w) as [[a w1] t1]; simpl.
  destruct (k a w1) as [[b w2] t2]; reflexivity.
Qed.

Lemma state_bind {A B} (m : M A) (k : A -> M B) (w : W) :
  state_of (bind m k w) = state_of (k (value_of (m w)) (state_of (m w))).
Proof.
  unfold bind, events_of, value_of, state_of.
  destruct (m w) as [[a w1] t1]; simpl.
  destruct (k a w1) as [[b w2] t2]; reflexivity.
Qed.

Lemma destroy_calls_app (t1 t2 : list Event) :
  destroy_calls (t1 ++ t2) = destroy_calls t1 ++ destroy_calls t2.
Proof.
  induction t1 as [|e t1 IH]; simpl; [reflexivity|].
  destruct e; simpl; rewrite ?IH; reflexivity.
Qed.

Lemma device_constructions_app (t1 t2 : list Event) :
  device_constructions (t1 ++ t2)
  = device_constructions t1 ++ device_constructions t2.
Proof.
  induction t1 as [|e t1 IH]; simpl; [reflexivity|].
  destruct e; simpl; rewrite ?IH; reflexivity.
Qed.

Lemma eqb_VK_SUCCESS (rc : VkResult) :
  negb (rc =? VK_SUCCESS) = false -> rc = VK_SUCCESS.
Proof.
  intros H. apply negb_false_iff in H. now apply Z.eqb_eq in H.
Qed.

Lemma neqb_VK_SUCCESS (rc : VkResult) :
  negb (rc =? VK_SUCCESS) = true -> rc <> VK_SUCCESS.
Proof.
  intros H. apply negb_true_iff in H. now apply Z.eqb_neq in H.
Qed.

(** Unfold a computation down to the calls it makes. *)
Ltac unfold_run :=
  unfold enable_instance_debugging, attach_debug_report,
    AcquireFirstCompatibleLogicalDevice, GetPhysicalDevices, enumerate,
    VulkanApplication_delete,
    VulkanHandle_assign, VulkanHandle_destroy, VK_CALL_LOG_ERROR,
    IsValid, bind, call, query, emit, ret.

Ltac reduce_run :=
  cbn -[Z.eqb N.eqb make_create_info make_application_info
        store_handles repeat N.to_nat] in *.

(** Name the answer of every call, in the order the calls are made, and
    split on every test of an answer. *)
Ltac run_call :=
  match goal with
  | |- context [IsDebuggingEnabled ?e] =>
      destruct (IsDebuggingEnabled e) eqn:?
  | |- context [DebugExtensionSupported ?e ?w] =>
      destruct (DebugExtensionSupported e w) eqn:?
  | |- context [CreateInstance ?v ?i ?w] =>
      destruct (CreateInstance v i w) as [[? ?] ?] eqn:?
  | |- context [SetupInstanceProcAddresses ?v ?i ?w] =>
      destruct (SetupInstanceProcAddresses v i w) as [? ?] eqn:?
  | |- context [VulkanDebugReport_new ?e ?i ?w] =>
      destruct (VulkanDebugReport_new e i w) as [? ?] eqn:?
  | |- context [VulkanDebugReport_delete ?e ?i ?w] =>
      destruct (VulkanDebugReport_delete e i w) as [? ?] eqn:?
  | |- context [DestroyInstance ?v ?i ?w] =>
      destruct (DestroyInstance v i w) as [? ?] eqn:?
  | |- context [EnumeratePhysicalDevices ?v ?i ?c ?b ?w] =>
      destruct (EnumeratePhysicalDevices v i c b w) as [[[? ?] ?] ?] eqn:?
  | |- context [negb (?rc =? VK_SUCCESS)] =>
      let H := fresh "Hrc" in
      destruct (negb (rc =? VK_SUCCESS)) eqn:H;
      [ apply neqb_VK_SUCCESS in H | apply eqb_VK_SUCCESS in H; subst rc ]
  | |- context [if negb ?b then _ else _] => destruct b eqn:?
  | |- context [if ?b then _ else _] => destruct b eqn:?
  end.

Ltac run_calls := reduce_run; repeat (run_call; reduce_run).

(** The constructor always ends in one of the three shapes. *)
Lemma VulkanApplication_new_run
    (application_name : string) (enabled_extensions : list string)
    (application_version api_version : uint32) (w w' : W)
    (this : VulkanApplication W) (tr : list Event) :
  VulkanApplication_new vk env application_name enabled_extensions
    application_version api_version w = (this, w', tr) ->
  constructed vk api_version (diagnostics_wanted env w)
    (make_create_info
       (make_application_info application_name application_version
                              api_version)
       (InstanceLayersToEnable env w)
       (if diagnostics_wanted env w
        then enabled_extensions ++ [DebugExtensionName env]
        else enabled_extensions))
    tr this.
Proof.
  unfold VulkanApplication_new, diagnostics_wanted.
  unfold_run. run_calls; intros [= <- <- <-];
    first [ apply constructed_creation_failed; assumption
          | apply constructed_resolution_failed
          | apply constructed_valid; constructor ].
Qed.

Lemma VulkanApplication_new_constructed
    (application_name : string) (enabled_extensions : list string)
    (application_version api_version : uint32) (w : W) :
  let r := VulkanApplication_new vk env application_name enabled_extensions
             application_version api_version w in
  constructed vk api_version (diagnostics_wanted env w)
    (make_create_info
       (make_application_info application_name application_version
                              api_version)
       (InstanceLayersToEnable env w)
       (if diagnostics_wanted env w
        then enabled_extensions ++ [DebugExtensionName env]
        else enabled_extensions))
    (events_of r) (value_of r).
Proof.
  intros r. destruct r as [[this w'] tr] eqn:Hr.
  apply (VulkanApplication_new_run _ _ _ _ _ _ _ _ Hr).
Qed.

(** *** Enumeration *)

Lemma GetPhysicalDevices_invalid (this : VulkanApplication W) (w : W) :
  IsValid this = false -> GetPhysicalDevices vk this w = ([], w, []).
Proof.
  intros H. unfold GetPhysicalDevices. rewrite H. reflexivity.
Qed.

Lemma GetPhysicalDevices_enumerated (this : VulkanApplication W) (w : W) :
  IsValid this = true ->
  enumerated (handle_ (instance_ this))
    (events_of (GetPhysicalDevices vk this w))
    (value_of (GetPhysicalDevices vk this w)).
Proof.
  intros H. unfold GetPhysicalDevices. rewrite H.
  cbn [negb]. unfold_run. unfold events_of, value_of.
  run_calls; rewrite ?repeat_length.
  - now apply enumerated_count_failed.
  - apply N.eqb_eq in Heqb. subst. apply enumerated_no_devices.
  - apply N.eqb_neq in Heqb. now apply enumerated_fill_failed.
  - apply N.eqb_neq in Heqb. now apply enumerated_filled.
Qed.

Lemma skipn_fresh_buffer (k n : nat) :
  skipn k (repeat VK_NULL_HANDLE n) = repeat VK_NULL_HANDLE (n - k).
Proof.
  revert k; induction n as [|n IH]; intros [|k]; simpl; auto.
Qed.

Lemma store_handles_length (written buffer : list VkPhysicalDevice) :
  List.length (store_handles written buffer) = List.length buffer.
Proof.
  unfold store_handles.
  rewrite length_app, length_firstn, length_skipn. lia.
Qed.

Lemma store_handles_full (written buffer : list VkPhysicalDevice) :
  List.length written = List.length buffer ->
  store_handles written buffer = written.
Proof.
  intros H. unfold store_handles.
  rewrite <- H, firstn_all, H, skipn_all. apply app_nil_r.
Qed.

Lemma enumerated_no_destroy i tr devices :
  enumerated i tr devices -> destroy_calls tr = [].
Proof. destruct 1; reflexivity. Qed.

Lemma enumerated_no_device i tr devices :
  enumerated i tr devices -> device_constructions tr = [].
Proof. destruct 1; reflexivity. Qed.

Lemma GetPhysicalDevices_no_destroy (this : VulkanApplication W) (w : W) :
  destroy_calls (events_of (GetPhysicalDevices vk this w)) = [].
Proof.
  destruct (IsValid this) eqn:H.
  - eapply enumerated_no_destroy, GetPhysicalDevices_enumerated, H.
  - now rewrite GetPhysicalDevices_invalid.
Qed.

Lemma GetPhysicalDevices_no_device (this : VulkanApplication W) (w : W) :
  device_constructions (events_of (GetPhysicalDevices vk this w)) = [].
Proof.
  destruct (IsValid this) eqn:H.
  - eapply enumerated_no_device, GetPhysicalDevices_enumerated, H.
  - now rewrite GetPhysicalDevices_invalid.
Qed.

(** *** Selection *)

Lemma first_compatible_no_destroy (handles : list VkPhysicalDevice) (w : W) :
  destroy_calls (events_of (first_compatible env handles w)) = [].
Proof.
  revert w; induction handles as [|h rest IH]; intros w.
  - reflexivity.
  - cbn [first_compatible]. unfold bind, call.
    destruct (VulkanDevice_new env h w) as [[] w1]; [reflexivity|].
    destruct (VulkanDevice_delete env h w1) as [u w2].
    specialize (IH w2).
    destruct (first_compatible env rest w2) as [[v w3] t].
    exact IH.
Qed.

Lemma first_compatible_scan (handles : list VkPhysicalDevice) (w : W) :
  let r := first_compatible env handles w in
  (exists before h after,
      handles = before ++ h :: after
      /\ device_constructions (events_of r)
         = map rejected before ++ [(h, true)]
      /\ value_of r = Some {| device_handle := h; device_valid := true |})
  \/ (device_constructions (events_of r) = map rejected handles
      /\ value_of r = None).
Proof.
  revert w; induction handles as [|h rest IH]; intros w.
  - right. split; reflexivity.
  - cbn zeta in *. cbn [first_compatible]. unfold bind, call.
    destruct (VulkanDevice_new env h w) as [[] w1].
    + left. exists [], h, rest. repeat split.
    + destruct (VulkanDevice_delete env h w1) as [u w2].
      specialize (IH w2).
      destruct (first_compatible env rest w2) as [[v w3] t].
      unfold events_of, value_of in *. cbn [fst snd] in *.
      cbn [app device_constructions].
      destruct IH as [(before & h' & after & -> & Hc & Hv) | [Hc Hv]].
      * left. exists (h :: before), h', after. rewrite Hc, Hv.
        repeat split.
      * right. rewrite Hc, Hv. split; reflexivity.
Qed.

Lemma AcquireFirstCompatibleLogicalDevice_no_destroy
    (this : VulkanApplication W) (w : W) :
  destroy_calls
    (events_of (AcquireFirstCompatibleLogicalDevice vk env this w)) = [].
Proof.
  unfold AcquireFirstCompatibleLogicalDevice.
  rewrite events_bind, destroy_calls_app, GetPhysicalDevices_no_destroy.
  apply first_compatible_no_destroy.
Qed.

(** *** The client's calls *)

Lemma step_frame (op : Op) (this : VulkanApplication W) (w : W) :
  destroy_calls (events_of (step vk env op this w)) = []
  /\ value_of (step vk env op this w)
     = if is_release op then ReleaseInstanceOwnership this else this.
Proof.
  destruct op; cbn [step is_release]; try (split; reflexivity).
  - rewrite events_bind, value_bind, destroy_calls_app,
      GetPhysicalDevices_no_destroy. split; reflexivity.
  - rewrite events_bind, value_bind, destroy_calls_app,
      AcquireFirstCompatibleLogicalDevice_no_destroy. split; reflexivity.
Qed.

Lemma run_frame (ops : list Op) (this : VulkanApplication W) (w : W) :
  let r := run vk env ops this w in
  destroy_calls (events_of r) = []
  /\ api_version_ (value_of r) = api_version_ this
  /\ valid_ (value_of r) = valid_ this
  /\ debug_report_ (value_of r) = debug_report_ this
  /\ instance_ (value_of r)
     = if existsb is_release ops then VulkanHandle_default
       else instance_ this.
Proof.
  revert this w; induction ops as [|op ops IH]; intros this w.
  - repeat split.
  - cbn zeta in *. cbn [run existsb].
    rewrite events_bind, value_bind, destroy_calls_app.
    destruct (step_frame op this w) as [-> ->].
    destruct (IH (if is_release op then ReleaseInstanceOwnership this
                  else this)
                 (state_of (step vk env op this w)))
      as (-> & -> & -> & -> & ->).
    destruct (is_release op); cbn [orb]; repeat split.
    destruct (existsb is_release ops); reflexivity.
Qed.

(** *** End of life *)

Lemma constructed_no_destroy api debugging info tr
    (this : VulkanApplication W) :
  constructed vk api debugging info tr this -> destroy_calls tr = [].
Proof.
  destruct 1 as [| | i tr report Ha]; try reflexivity.
  destruct Ha; reflexivity.
Qed.

Lemma delete_nothing_owned (this : VulkanApplication W) (w : W) :
  handle_ (instance_ this) = VK_NULL_HANDLE ->
  destroy_calls (events_of (VulkanApplication_delete env this w)) = [].
Proof.
  intros H. unfold VulkanApplication_delete, VulkanHandle_destroy.
  rewrite H. change (VK_NULL_HANDLE =? VK_NULL_HANDLE) with true.
  cbv iota. unfold_run. destruct (debug_report_ this); run_calls;
    reflexivity.
Qed.

Lemma delete_owned (this : VulkanApplication W) (w : W) :
  handle_ (instance_ this) <> VK_NULL_HANDLE ->
  disposer_ (instance_ this) = Some (instance_disposer vk) ->
  destroy_calls (events_of (VulkanApplication_delete env this w))
  = [handle_ (instance_ this)].
Proof.
  intros Hh Hd. unfold VulkanApplication_delete, VulkanHandle_destroy.
  rewrite Hd. apply Z.eqb_neq in Hh. rewrite Hh.
  unfold instance_disposer. unfold_run.
  destruct (debug_report_ this); run_calls; reflexivity.
Qed.

Lemma lifetime_events (application_name : string)
    (enabled_extensions : list string)
    (application_version api_version : uint32) (ops : list Op) (w : W) :
  let built := VulkanApplication_new vk env application_name
                 enabled_extensions application_version api_version w in
  let used := run vk env ops (value_of built) (state_of built) in
  events_of (lifetime vk env application_name enabled_extensions
               application_version api_version ops w)
  = events_of built ++ events_of used
    ++ events_of (VulkanApplication_delete env (value_of used)
                    (state_of used)).
Proof.
  cbv zeta. unfold lifetime.
  rewrite events_bind. cbv beta. rewrite events_bind. reflexivity.
Qed.

(** *** Logs as calls on the driver *)

Lemma performed_app (w w1 w2 : W) (t1 t2 : list Event) :
  performed vk env w t1 w1 ->
  performed vk env w1 t2 w2 ->
  performed vk env w (t1 ++ t2) w2.
Proof.
  induction 1; simpl; intros Hrest; [assumption | econstructor; eauto ..].
Qed.

Lemma performed_bind {A B} (m : M A) (k : A -> M B) (w : W) :
  performed vk env w (events_of (m w)) (state_of (m w)) ->
  performed vk env (state_of (m w))
            (events_of (k (value_of (m w)) (state_of (m w))))
            (state_of (k (value_of (m w)) (state_of (m w)))) ->
  performed vk env w (events_of (bind m k w)) (state_of (bind m k w)).
Proof.
  intros Hm Hk. rewrite events_bind, state_bind.
  eapply performed_app; eassumption.
Qed.

Lemma faithful_bind {A B} (m : M A) (k : A -> M B) :
  faithful vk env m -> (forall a, faithful vk env (k a)) ->
  faithful vk env (bind m k).
Proof.
  intros Hm Hk w. apply performed_bind; [apply Hm | apply Hk].
Qed.

Lemma faithful_ret {A} (a : A) : faithful vk env (ret a).
Proof. intros w. constructor. Qed.

Lemma faithful_log (message : string) :
  faithful vk env (emit (EvLog message)).
Proof. intros w. repeat constructor. Qed.

Lemma faithful_query {A} (f : W -> A) : faithful vk env (query f).
Proof. intros w. constructor. Qed.

Lemma faithful_CreateInstance (info : VkInstanceCreateInfo) :
  faithful vk env
    (call (CreateInstance vk info)
          (fun r => EvCreateInstance info (fst r) (snd r))).
Proof.
  intros w. unfold call, events_of, state_of.
  destruct (CreateInstance vk info w) as [[rc i] w1] eqn:E.
  eapply performed_CreateInstance; [exact E | constructor].
Qed.

Lemma faithful_SetupInstanceProcAddresses (i : VkInstance) :
  faithful vk env
    (call (SetupInstanceProcAddresses vk i)
          (EvSetupInstanceProcAddresses i)).
Proof.
  intros w. unfold call, events_of, state_of.
  destruct (SetupInstanceProcAddresses vk i w) as [ok w1] eqn:E.
  eapply performed_SetupInstanceProcAddresses; [exact E | constructor].
Qed.

Lemma faithful_DestroyInstance (i : VkInstance) :
  faithful vk env
    (call (DestroyInstance vk i) (fun _ => EvDestroyInstance i)).
Proof.
  intros w. unfold call, events_of, state_of.
  destruct (DestroyInstance vk i w) as [[] w1] eqn:E.
  eapply performed_DestroyInstance; [exact E | constructor].
Qed.

Lemma faithful_enumerate (i : VkInstance) (c : uint32)
    (capacity : option nat) :
  faithful vk env (enumerate vk i c capacity).
Proof.
  intros w. unfold enumerate, call, events_of, state_of.
  destruct (EnumeratePhysicalDevices vk i c capacity w)
    as [[[rc n] written] w1] eqn:E.
  eapply performed_EnumeratePhysicalDevices; [exact E | constructor].
Qed.

Lemma faithful_NewDebugReport (i : VkInstance) :
  faithful vk env (call (VulkanDebugReport_new env i) (EvNewDebugReport i)).
Proof.
  intros w. unfold call, events_of, state_of.
  destruct (VulkanDebugReport_new env i w) as [valid w1] eqn:E.
  eapply performed_NewDebugReport; [exact E | constructor].
Qed.

Lemma faithful_DeleteDebugReport (i : VkInstance) :
  faithful vk env
    (call (VulkanDebugReport_delete env i) (fun _ => EvDeleteDebugReport i)).
Proof.
  intros w. unfold call, events_of, state_of.
  destruct (VulkanDebugReport_delete env i w) as [[] w1] eqn:E.
  eapply performed_DeleteDebugReport; [exact E | constructor].
Qed.

Lemma faithful_NewDevice (h : VkPhysicalDevice) :
  faithful vk env (call (VulkanDevice_new env h) (EvNewDevice h)).
Proof.
  intros w. unfold call, events_of, state_of.
  destruct (VulkanDevice_new env h w) as [valid w1] eqn:E.
  eapply performed_NewDevice; [exact E | constructor].
Qed.

Lemma faithful_DeleteDevice (h : VkPhysicalDevice) :
  faithful vk env
    (call (VulkanDevice_delete env h) (fun _ => EvDeleteDevice h)).
Proof.
  intros w. unfold call, events_of, state_of.
  destruct (VulkanDevice_delete env h w) as [[] w1] eqn:E.
  eapply performed_DeleteDevice; [exact E | constructor].
Qed.

(** Take a computation apart into its calls. *)
Ltac faithfully :=
  repeat first
    [ apply faithful_ret
    | apply faithful_log
    | apply faithful_query
    | apply faithful_CreateInstance
    | apply faithful_SetupInstanceProcAddresses
    | apply faithful_DestroyInstance
    | apply faithful_enumerate
    | apply faithful_NewDebugReport
    | apply faithful_DeleteDebugReport
    | apply faithful_NewDevice
    | apply faithful_DeleteDevice
    | apply faithful_bind; [| intros ?]
    | match goal with
      | |- faithful _ _ (if ?b then _ else _) => destruct b
      | |- faithful _ _ (match ?x with Some _ => _ | None => _ end) =>
          destruct x
      end ].

Lemma faithful_instance_disposer (i : VkInstance) :
  faithful vk env (instance_disposer vk i).
Proof. unfold instance_disposer. faithfully. Qed.

Lemma faithful_VulkanHandle_destroy (h : VulkanHandle W) :
  (forall release, disposer_ h = Some release ->
                   forall i, faithful vk env (release i)) ->
  faithful vk env (VulkanHandle_destroy h).
Proof.
  intros Hrelease. unfold VulkanHandle_destroy.
  destruct (handle_ h =? VK_NULL_HANDLE); [faithfully|].
  apply faithful_bind; [| intros ?; faithfully].
  destruct (disposer_ h) as [release|]; [| faithfully].
  now apply Hrelease.
Qed.

Lemma faithful_VulkanApplication_new
    (application_name : string) (enabled_extensions : list string)
    (application_version api_version : uint32) :
  faithful vk env
    (VulkanApplication_new vk env application_name enabled_extensions
       application_version api_version).
Proof.
  unfold VulkanApplication_new, enable_instance_debugging,
    attach_debug_report, VK_CALL_LOG_ERROR, VulkanHandle_assign.
  faithfully.
Qed.

Lemma faithful_GetPhysicalDevices (this : VulkanApplication W) :
  faithful vk env (GetPhysicalDevices vk this).
Proof. unfold GetPhysicalDevices, VK_CALL_LOG_ERROR. faithfully. Qed.

Lemma faithful_first_compatible (handles : list VkPhysicalDevice) :
  faithful vk env (first_compatible env handles).
Proof.
  induction handles as [|h rest IH]; cbn [first_compatible]; faithfully.
  exact IH.
Qed.

Lemma faithful_AcquireFirstCompatibleLogicalDevice
    (this : VulkanApplication W) :
  faithful vk env (AcquireFirstCompatibleLogicalDevice vk env this).
Proof.
  unfold AcquireFirstCompatibleLogicalDevice.
  apply faithful_bind; [apply faithful_GetPhysicalDevices|].
  intros handles. apply faithful_first_compatible.
Qed.

Lemma faithful_step (op : Op) (this : VulkanApplication W) :
  faithful vk env (step vk env op this).
Proof.
  destruct op; cbn [step]; faithfully;
    first [ apply faithful_GetPhysicalDevices
          | apply faithful_first_compatible
          | apply faithful_AcquireFirstCompatibleLogicalDevice ].
Qed.

Lemma faithful_run (ops : list Op) (this : VulkanApplication W) :
  faithful vk env (run vk env ops this).
Proof.
  revert this; induction ops as [|op ops IH]; intros this; cbn [run].
  - apply faithful_ret.
  - apply faithful_bind; [apply faithful_step | exact IH].
Qed.

Lemma faithful_VulkanApplication_delete (this : VulkanApplication W) :
  releases_faithfully vk env this ->
  faithful vk env (VulkanApplication_delete env this).
Proof.
  intros Hthis. unfold VulkanApplication_delete.
  apply faithful_bind; [faithfully|]. intros _.
  apply faithful_bind; [| intros ?; faithfully].
  apply faithful_VulkanHandle_destroy.
  intros release Hd. unfold releases_faithfully in Hthis.
  now rewrite Hd in Hthis.
Qed.

Lemma constructed_releases_faithfully api debugging info tr
    (this : VulkanApplication W) :
  constructed vk api debugging info tr this ->
  releases_faithfully vk env this.
Proof.
  destruct 1; unfold releases_faithfully; cbn; try exact I.
  apply faithful_instance_disposer.
Qed.

(** The log of a whole life is the calls made on the driver. *)
Lemma faithful_lifetime (application_name : string)
    (enabled_extensions : list string)
    (application_version api_version : uint32) (ops : list Op) :
  faithful vk env
    (lifetime vk env application_name enabled_extensions
       application_version api_version ops).
Proof.
  intros w. unfold lifetime.
  apply performed_bind; [apply faithful_VulkanApplication_new|].
  apply performed_bind; [apply faithful_run|].
  apply faithful_VulkanApplication_delete.
  pose proof (VulkanApplication_new_constructed application_name
                enabled_extensions application_version api_version w) as H.
  cbv zeta in H. apply constructed_releases_faithfully in H.
  destruct (run_frame ops
              (value_of (VulkanApplication_new vk env application_name
                           enabled_extensions application_version
                           api_version w))
              (state_of (VulkanApplication_new vk env application_name
                           enabled_extensions application_version
                           api_version w)))
    as (_ & _ & _ & _ & Hi).
  unfold releases_faithfully in *. rewrite Hi.
  destruct (existsb is_release ops); [exact I | exact H].
Qed.

End Running.

(** ** Properties of the application object *)

Section Properties.

Context {W : Type}.
Variable vk : VulkanProcTable W.
Variable env : Collaborators W.

(** Split a membership in an explicit list of events into its cases. *)
Ltac in_cases :=
  repeat match goal with
    | H : In _ (_ :: _) |- _ => destruct H as [H | H]
    | H : In _ [] |- _ => destruct H
    | H : @eq Event _ _ |- _ =>
        first [ discriminate H | injection H as ?; subst ]
    end.

Ltac break_ex :=
  repeat match goal with
    | H : exists _, _ |- _ => destruct H
    | H : _ /\ _ |- _ => destruct H
    end.

(** Split what a log records about the driver into its calls. *)
Ltac invert_performed :=
  repeat match goal with
    | H : performed _ _ _ (_ :: _) _ |- _ => inversion H; subst; clear H
    | H : performed _ _ _ [] _ |- _ => inversion H; subst; clear H
    end.

Lemma constructed_validity_in_log api debugging info tr
    (this : VulkanApplication W) :
  constructed vk api debugging info tr this ->
  (valid_ this = true
   <-> creation_succeeded tr /\ resolution_succeeded tr)
  /\ (valid_ this = false <-> creation_failed tr \/ resolution_failed tr)
  /\ (valid_ this = false -> instance_ this = VulkanHandle_default).
Proof.
  intros H.
  unfold creation_succeeded, creation_failed, resolution_succeeded,
    resolution_failed.
  destruct H as [rc i Hrc | i | i tr report Ha]; cbn [valid_ instance_].
  - repeat split; try discriminate; try reflexivity.
    + intros [(info' & i' & Hin) _]. in_cases. contradiction.
    + intros _. left. eexists _, rc, i. split; [assumption | now left].
  - repeat split; try discriminate; try reflexivity.
    + intros [_ (i' & Hin)]. in_cases.
    + intros _. right. exists i. right. now left.
  - repeat split; try discriminate.
    + eexists _, i. now left.
    + exists i. right. now left.
    + intros [(info' & rc & i' & Hrc & Hin) | (i' & Hin)];
        destruct Ha; in_cases; contradiction.
Qed.

(** What the constructor's answers from the driver decide: the status and
    handle of [CreateInstance] on the create info it built, and the
    answer of [SetupInstanceProcAddresses] on that handle in the state
    creation left. *)
Lemma VulkanApplication_new_answers
    (application_name : string) (enabled_extensions : list string)
    (application_version api_version : uint32) (w : W) :
  let r := VulkanApplication_new vk env application_name enabled_extensions
             application_version api_version w in
  let created :=
    CreateInstance vk
      (create_info_of env application_name enabled_extensions
                      application_version api_version w) w in
  let resolved :=
    SetupInstanceProcAddresses vk (snd (fst created)) (snd created) in
  valid_ (value_of r)
  = (fst (fst created) =? VK_SUCCESS) && fst resolved
  /\ instance_ (value_of r)
     = (if valid_ (value_of r)
        then {| handle_ := snd (fst created);
                disposer_ := Some (instance_disposer vk) |}
        else VulkanHandle_default)
  /\ exists rest,
       events_of r
       = EvCreateInstance
           (create_info_of env application_name enabled_extensions
                           application_version api_version w)
           (fst (fst created)) (snd (fst created)) :: rest.
Proof.
  intros r created resolved.
  pose proof (VulkanApplication_new_constructed vk env application_name
                enabled_extensions application_version api_version w) as H.
  pose proof (faithful_VulkanApplication_new vk env application_name
                enabled_extensions application_version api_version w) as P.
  cbv zeta in H. fold r in H, P. revert H P.
  unfold resolved, created, create_info_of.
  generalize (events_of r) (value_of r) (state_of r). intros tr this w' H P.
  destruct H as [rc i Hrc | i | i tr report Ha]; invert_performed;
    cbn [valid_ instance_];
    repeat match goal with
      | E : CreateInstance _ _ _ = _ |- _ =>
          rewrite E; clear E; cbn [fst snd]
      | E : SetupInstanceProcAddresses _ _ _ = _ |- _ =>
          rewrite E; clear E; cbn [fst snd]
      end.
  - apply Z.eqb_neq in Hrc. rewrite Hrc. repeat split. eexists; reflexivity.
  - repeat split. eexists; reflexivity.
  - repeat split. eexists; reflexivity.
Qed.

(** C1. Construction leaves the object valid exactly when the
    [CreateInstance] call of the driver returns [VK_SUCCESS] and the
    [SetupInstanceProcAddresses] call on the handle it returned answers
    true; it leaves it invalid exactly when one of them fails, and then
    [GetInstance()] is the null handle with nothing to release.  The log
    records these calls as the driver answered them. *)
Theorem construction_valid_iff_both_succeed
    (application_name : string) (enabled_extensions : list string)
    (application_version api_version : uint32) (w : W) :
  let r := VulkanApplication_new vk env application_name enabled_extensions
             application_version api_version w in
  let created :=
    CreateInstance vk
      (create_info_of env application_name enabled_extensions
                      application_version api_version w) w in
  let resolved :=
    SetupInstanceProcAddresses vk (snd (fst created)) (snd created) in
  (IsValid (value_of r) = true
   <-> fst (fst created) = VK_SUCCESS /\ fst resolved = true)
  /\ (IsValid (value_of r) = false
      <-> fst (fst created) <> VK_SUCCESS \/ fst resolved = false)
  /\ (IsValid (value_of r) = false ->
      handle_ (GetInstance (value_of r)) = VK_NULL_HANDLE
      /\ disposer_ (GetInstance (value_of r)) = None)
  /\ performed vk env w (events_of r) (state_of r)
  /\ (IsValid (value_of r) = true
      <-> creation_succeeded (events_of r)
          /\ resolution_succeeded (events_of r))
  /\ (IsValid (value_of r) = false
      <-> creation_failed (events_of r) \/ resolution_failed (events_of r)).
Proof.
  intros r created resolved.
  destruct (VulkanApplication_new_answers application_name
              enabled_extensions application_version api_version w)
    as (Hvalid & Hinstance & _).
  fold r created resolved in Hvalid, Hinstance.
  pose proof (VulkanApplication_new_constructed vk env application_name
                enabled_extensions application_version api_version w) as H.
  cbv zeta in H. fold r in H.
  destruct (constructed_validity_in_log _ _ _ _ _ H) as (Hlog1 & Hlog2 & _).
  unfold IsValid, GetInstance. rewrite Hinstance, Hvalid.
  split; [| split; [| split; [| split; [| split]]]].
  - rewrite andb_true_iff, Z.eqb_eq. reflexivity.
  - rewrite andb_false_iff, Z.eqb_neq. reflexivity.
  - intros ->. split; reflexivity.
  - apply faithful_VulkanApplication_new.
  - rewrite <- Hvalid. exact Hlog1.
  - rewrite <- Hvalid. exact Hlog2.
Qed.


(** When the validity a logical device reports depends on its handle
    only, the loop returns the device of the first handle accepted. *)
Lemma first_compatible_first_accepted
    (valid_of : VkPhysicalDevice -> bool)
    (handles : list VkPhysicalDevice) (w : W) :
  (forall h w', fst (VulkanDevice_new env h w') = valid_of h) ->
  value_of (first_compatible env handles w) = first_accepted valid_of handles.
Proof.
  intros Hvalid. revert w; induction handles as [|h rest IH]; intros w.
  - reflexivity.
  - cbn [first_compatible]. unfold bind, call, first_accepted.
    cbn [find]. rewrite <- (Hvalid h w).
    destruct (VulkanDevice_new env h w) as [[] w1]; cbn [fst].
    + reflexivity.
    + destruct (VulkanDevice_delete env h w1) as [u w2].
      specialize (IH w2).
      destruct (first_compatible env rest w2) as [[v w3] t].
      exact IH.
Qed.

(** C2. [AcquireFirstCompatibleLogicalDevice()] constructs a logical
    device for the handles of [GetPhysicalDevices()] in their order,
    returns the first that reports valid and constructs none for the
    handles after it; when none reports valid, and so when there is no
    device at all, it returns none.  Each construction in the log is a
    call of the [VulkanDevice] constructor with the validity it answered;
    when that validity depends on the handle only, the device returned
    is that of the first handle the constructor accepts. *)
Theorem acquire_returns_first_valid_device
    (this : VulkanApplication W) (w : W) :
  let devices := value_of (GetPhysicalDevices vk this w) in
  let r := AcquireFirstCompatibleLogicalDevice vk env this w in
  ((exists before h after,
       devices = before ++ h :: after
       /\ device_constructions (events_of r)
          = map rejected before ++ [(h, true)]
       /\ value_of r
          = Some {| device_handle := h; device_valid := true |})
   \/ (device_constructions (events_of r) = map rejected devices
       /\ value_of r = None))
  /\ (devices = [] ->
      device_constructions (events_of r) = [] /\ value_of r = None)
  /\ performed vk env w (events_of r) (state_of r)
  /\ (forall valid_of : VkPhysicalDevice -> bool,
         (forall h w', fst (VulkanDevice_new env h w') = valid_of h) ->
         value_of r = first_accepted valid_of devices).
Proof.
  intros devices r.
  assert (Hscan := first_compatible_scan env devices
                     (state_of (GetPhysicalDevices vk this w))).
  cbv zeta in Hscan.
  assert (He : device_constructions (events_of r)
               = device_constructions
                   (events_of (first_compatible env devices
                      (state_of (GetPhysicalDevices vk this w))))).
  { unfold r, AcquireFirstCompatibleLogicalDevice.
    rewrite events_bind, device_constructions_app,
      GetPhysicalDevices_no_device. reflexivity. }
  assert (Hv : value_of r
               = value_of (first_compatible env devices
                    (state_of (GetPhysicalDevices vk this w)))).
  { unfold r, AcquireFirstCompatibleLogicalDevice.
    now rewrite value_bind. }
  rewrite He, Hv. split; [exact Hscan|]. split; [| split].
  - intros Hnil. rewrite Hnil in *.
    destruct Hscan as [(before & h & after & Hsplit & _) | Hnone].
    + now destruct before.
    + exact Hnone.
  - apply faithful_AcquireFirstCompatibleLogicalDevice.
  - intros valid_of Hvalid. now apply first_compatible_first_accepted.
Qed.

(** C4. When instance creation succeeds and the instance-level
    proc-address resolution fails, the object is invalid, the created
    handle is not stored in the owning handle, and whatever the client
    calls afterwards, up to and including destruction, the object never
    calls [DestroyInstance]. *)
Theorem failed_resolution_leaves_instance_unowned
    (application_name : string) (enabled_extensions : list string)
    (application_version api_version : uint32) (ops : list Op) (w : W)
    (info : VkInstanceCreateInfo) (i : VkInstance) :
  let built := VulkanApplication_new vk env application_name
                 enabled_extensions application_version api_version w in
  In (EvCreateInstance info VK_SUCCESS i) (events_of built) ->
  In (EvSetupInstanceProcAddresses i false) (events_of built) ->
  IsValid (value_of built) = false
  /\ GetInstance (value_of built) = VulkanHandle_default
  /\ destroy_calls
       (events_of (lifetime vk env application_name enabled_extensions
                     application_version api_version ops w)) = [].
Proof.
  intros built Hcreate Hsetup.
  rewrite lifetime_events. fold built.
  pose proof (VulkanApplication_new_constructed vk env application_name
                enabled_extensions application_version api_version w) as H.
  cbv zeta in H. fold built in H.
  destruct (run_frame vk env ops (value_of built) (state_of built))
    as (Hrun & _ & _ & _ & Hinst).
  rewrite !destroy_calls_app, Hrun, (constructed_no_destroy vk _ _ _ _ _ H).
  cbn [app]. revert Hinst H Hcreate Hsetup.
  generalize (run vk env ops (value_of built) (state_of built)).
  generalize (events_of built) (value_of built).
  intros tr this used Hinst H Hcreate Hsetup.
  destruct H as [rc i' Hrc | i' | i' tr report Ha]; in_cases;
    try (destruct Ha; in_cases; fail).
  repeat split. apply delete_nothing_owned. rewrite Hinst.
  cbn [instance_]. destruct (existsb is_release ops); reflexivity.
Qed.

(** C6. On an invalid object [GetPhysicalDevices()] returns the empty
    sequence and calls nothing: no enumeration call is made and the
    driver is left as it was. *)
Theorem invalid_application_enumerates_nothing
    (this : VulkanApplication W) (w : W) :
  IsValid this = false ->
  let r := GetPhysicalDevices vk this w in
  value_of r = []
  /\ enumeration_calls (events_of r) = []
  /\ events_of r = []
  /\ state_of r = w.
Proof.
  intros H r. unfold r. rewrite (GetPhysicalDevices_invalid vk this w H).
  repeat split.
Qed.

(** C9. [GetAPIVersion()] is the [api_version] given to the constructor,
    whether the object became valid or not and whatever the client has
    called since, a transfer of ownership included. *)
Theorem api_version_is_the_constructor_argument
    (application_name : string) (enabled_extensions : list string)
    (application_version api_version : uint32) (ops : list Op) (w : W) :
  let built := VulkanApplication_new vk env application_name
                 enabled_extensions application_version api_version w in
  let used := run vk env ops (value_of built) (state_of built) in
  GetAPIVersion (value_of built) = api_version
  /\ GetAPIVersion (value_of used) = api_version.
Proof.
  intros built used.
  assert (Hb : GetAPIVersion (value_of built) = api_version).
  { pose proof (VulkanApplication_new_constructed vk env application_name
                  enabled_extensions application_version api_version w)
      as H.
    cbv zeta in H. fold built in H.
    destruct H; reflexivity. }
  split; [exact Hb|].
  destruct (run_frame vk env ops (value_of built) (state_of built))
    as (_ & Hapi & _).
  unfold GetAPIVersion in *. fold used in Hapi. congruence.
Qed.

(** C5, as the code has it. Over a whole life of the object
    (construction, any calls of the client, destruction) the object
    calls [DestroyInstance] at most once, and every such call in the log
    is a call on the driver.  If the client transferred ownership the
    object makes no such call, the one release being left to the new
    owner.  If it never did and the object is valid, destruction makes
    exactly one, on the handle [CreateInstance] returned, unless that
    handle is null. *)
Theorem instance_released_at_most_once
    (application_name : string) (enabled_extensions : list string)
    (application_version api_version : uint32) (ops : list Op) (w : W) :
  let built := VulkanApplication_new vk env application_name
                 enabled_extensions application_version api_version w in
  let created :=
    CreateInstance vk
      (create_info_of env application_name enabled_extensions
                      application_version api_version w) w in
  let life := lifetime vk env application_name enabled_extensions
                application_version api_version ops w in
  let calls := destroy_calls (events_of life) in
  performed vk env w (events_of life) (state_of life)
  /\ (List.length calls <= 1)%nat
  /\ (existsb is_release ops = true -> calls = [])
  /\ (IsValid (value_of built) = true ->
      handle_ (GetInstance (value_of built)) = snd (fst created))
  /\ (IsValid (value_of built) = true ->
      snd (fst created) <> VK_NULL_HANDLE ->
      existsb is_release ops = false ->
      calls = [snd (fst created)]).
Proof.
  intros built created life calls.
  split; [apply faithful_lifetime|].
  destruct (VulkanApplication_new_answers application_name
              enabled_extensions application_version api_version w)
    as (_ & Hinstance & _).
  fold built created in Hinstance.
  unfold calls, life. rewrite lifetime_events. fold built.
  pose proof (VulkanApplication_new_constructed vk env application_name
                enabled_extensions application_version api_version w) as H.
  cbv zeta in H. fold built in H.
  destruct (run_frame vk env ops (value_of built) (state_of built))
    as (Hrun & _ & _ & _ & Hinst).
  rewrite !destroy_calls_app, Hrun, (constructed_no_destroy vk _ _ _ _ _ H).
  cbn [app]. unfold IsValid, GetInstance.
  rewrite Hinstance in Hinst |- *.
  set (used := run vk env ops (value_of built) (state_of built)) in *.
  assert (Hnull : handle_ (instance_ (value_of used)) = VK_NULL_HANDLE ->
                  destroy_calls
                    (events_of (VulkanApplication_delete env
                                  (value_of used) (state_of used))) = []).
  { apply delete_nothing_owned. }
  destruct (valid_ (value_of built)), (existsb is_release ops);
    try (rewrite Hnull by (rewrite Hinst; reflexivity);
         split; [simpl; lia|];
         split; [intros; first [reflexivity | discriminate]|];
         split; intros; first [reflexivity | discriminate]).
  destruct (Z.eq_dec (snd (fst created)) VK_NULL_HANDLE) as [Hi | Hi].
  - rewrite Hnull by (rewrite Hinst; exact Hi).
    split; [simpl; lia|].
    split; [intros; discriminate|].
    split; [intros _; reflexivity|].
    intros _ Hne. contradiction.
  - rewrite delete_owned with (vk := vk);
      rewrite ?Hinst; cbn [handle_ disposer_];
      [| exact Hi | reflexivity ].
    split; [simpl; lia|].
    split; [intros; discriminate|].
    split; intros; reflexivity.
Qed.

(** C7, as the code has it. On a valid object [GetPhysicalDevices()]
    returns the empty sequence when the count call or the fill call of
    [EnumeratePhysicalDevices] fails and when the count call reports zero
    devices.  Otherwise it returns as many elements as the count call
    reported: the handles the fill call wrote, in the order written and
    none left out, followed by a null handle for every slot the fill
    call did not write; when the fill call wrote that many handles, the
    result is exactly those. *)
Theorem physical_devices_as_enumerated
    (this : VulkanApplication W) (w : W) :
  IsValid this = true ->
  let r := GetPhysicalDevices vk this w in
  let h := handle_ (GetInstance this) in
  let counted := EnumeratePhysicalDevices vk h 0%N None w in
  let rc1 := fst (fst (fst counted)) in
  let n := snd (fst (fst counted)) in
  let filled :=
    EnumeratePhysicalDevices vk h n (Some (N.to_nat n)) (snd counted) in
  let rc2 := fst (fst (fst filled)) in
  let written := snd (fst filled) in
  performed vk env w (events_of r) (state_of r)
  /\ (rc1 <> VK_SUCCESS -> value_of r = [])
  /\ (rc1 = VK_SUCCESS -> n = 0%N -> value_of r = [])
  /\ (rc1 = VK_SUCCESS -> n <> 0%N -> rc2 <> VK_SUCCESS -> value_of r = [])
  /\ (rc1 = VK_SUCCESS -> n <> 0%N -> rc2 = VK_SUCCESS ->
      value_of r
      = firstn (N.to_nat n) written
        ++ repeat VK_NULL_HANDLE (N.to_nat n - List.length written)
      /\ (List.length written = N.to_nat n -> value_of r = written)).
Proof.
  intros Hvalid r h counted rc1 n filled rc2 written.
  split; [apply faithful_GetPhysicalDevices|].
  unfold r, rc2, written, filled, rc1, n, counted, h.
  unfold GetPhysicalDevices, GetInstance. rewrite Hvalid. cbn [negb].
  unfold enumerate, VK_CALL_LOG_ERROR, bind, call, emit, ret, value_of.
  destruct (EnumeratePhysicalDevices vk (handle_ (instance_ this)) 0%N None
              w) as [[[c1 m] wr1] w1].
  cbn [fst snd].
  destruct (negb (c1 =? VK_SUCCESS)) eqn:H1;
    [apply neqb_VK_SUCCESS in H1 | apply eqb_VK_SUCCESS in H1].
  { repeat split; intros; try reflexivity; exfalso; auto. }
  destruct (m =? 0)%N eqn:Hm;
    [apply N.eqb_eq in Hm | apply N.eqb_neq in Hm].
  { repeat split; intros; try reflexivity; exfalso; auto. }
  rewrite repeat_length.
  destruct (EnumeratePhysicalDevices vk (handle_ (instance_ this)) m
              (Some (N.to_nat m)) w1) as [[[c2 m'] wr2] w2].
  cbn [fst snd].
  destruct (negb (c2 =? VK_SUCCESS)) eqn:H2;
    [apply neqb_VK_SUCCESS in H2 | apply eqb_VK_SUCCESS in H2].
  { repeat split; intros; try reflexivity; exfalso; auto. }
  cbn [fst snd].
  split; [intros; exfalso; auto|].
  split; [intros; exfalso; auto|].
  split; [intros; exfalso; auto|].
  intros _ _ _. split.
  - unfold store_handles.
    rewrite repeat_length, skipn_fresh_buffer. reflexivity.
  - intros Hlen. apply store_handles_full. now rewrite repeat_length.
Qed.

(** C10. On a valid object, when both enumeration calls succeed and the
    first reports a nonzero count, the sequence returned has exactly
    that many elements, whatever count the second call leaves and
    however many handles it writes. *)
Theorem physical_devices_length_is_first_count
    (this : VulkanApplication W) (w : W)
    (i i' : VkInstance) (c c' n n' : uint32) (capacity : nat)
    (wr written : list VkPhysicalDevice) :
  IsValid this = true ->
  let r := GetPhysicalDevices vk this w in
  In (EvEnumeratePhysicalDevices i c None VK_SUCCESS n wr) (events_of r) ->
  In (EvEnumeratePhysicalDevices i' c' (Some capacity) VK_SUCCESS n'
                                 written) (events_of r) ->
  n <> 0%N ->
  List.length (value_of r) = N.to_nat n.
Proof.
  intros Hvalid r.
  pose proof (GetPhysicalDevices_enumerated vk this w Hvalid) as H.
  fold r in H. revert H. generalize (events_of r) (value_of r).
  intros tr devices H Hfirst Hsecond Hn.
  destruct H; in_cases; try contradiction.
  now rewrite store_handles_length, repeat_length.
Qed.

Lemma c_str_clean_names (names : list string) :
  Forall (fun name => c_str name = name) names -> map c_str names = names.
Proof.
  induction 1 as [|name names Hname _ IH]; cbn [map]; [reflexivity|].
  now rewrite Hname, IH.
Qed.

(** C8, as the code has it. [CreateInstance] is called, in the state the
    constructor was entered with, on a create info whose extension names
    are the caller's names, each as the C string [c_str()] gives,
    followed by the debug extension name exactly when the debug toggle
    is on and the debug-reporting extension is supported.  Otherwise the
    names are the caller's and nothing is added; they are the caller's
    list unchanged when no name holds a NUL character. *)
Theorem debug_extension_appended_iff_diagnostics
    (application_name : string) (enabled_extensions : list string)
    (application_version api_version : uint32) (w : W) :
  let r := VulkanApplication_new vk env application_name enabled_extensions
             application_version api_version w in
  let wanted := IsDebuggingEnabled env && DebugExtensionSupported env w in
  let info := create_info_of env application_name enabled_extensions
                application_version api_version w in
  let created := CreateInstance vk info w in
  (exists rest,
      events_of r
      = EvCreateInstance info (fst (fst created)) (snd (fst created))
        :: rest)
  /\ performed vk env w (events_of r) (state_of r)
  /\ ppEnabledExtensionNames info
     = map c_str (if wanted
                  then enabled_extensions ++ [DebugExtensionName env]
                  else enabled_extensions)
  /\ (ppEnabledExtensionNames info
      = map c_str enabled_extensions ++ [c_str (DebugExtensionName env)]
      <-> wanted = true)
  /\ (ppEnabledExtensionNames info = map c_str enabled_extensions
      <-> wanted = false)
  /\ (wanted = false ->
      Forall (fun name => c_str name = name) enabled_extensions ->
      ppEnabledExtensionNames info = enabled_extensions)
  /\ enabledExtensionCount info
     = static_cast_uint32 (List.length (ppEnabledExtensionNames info)).
Proof.
  intros r wanted info created.
  destruct (VulkanApplication_new_answers application_name
              enabled_extensions application_version api_version w)
    as (_ & _ & Hfirst).
  split; [exact Hfirst|].
  split; [apply faithful_VulkanApplication_new|].
  unfold info, create_info_of, diagnostics_wanted. fold wanted.
  cbn [ppEnabledExtensionNames enabledExtensionCount make_create_info].
  assert (Hne : map c_str enabled_extensions
                ++ [c_str (DebugExtensionName env)]
                <> map c_str enabled_extensions).
  { intros Heq. apply (f_equal (@List.length string)) in Heq.
    rewrite length_app in Heq. simpl in Heq. lia. }
  split; [reflexivity|].
  destruct wanted; rewrite ?map_app; cbn [map].
  - split; [tauto|]. split.
    + split; [intros Heq; contradiction | discriminate].
    + split; [discriminate|]. now rewrite !length_app, length_map.
  - split.
    + split; [intros Heq; symmetry in Heq; contradiction | discriminate].
    + split; [tauto|]. split; [| now rewrite length_map].
      intros _ Hclean. now apply c_str_clean_names.
Qed.

End Properties.

(** ** The properties on the scripted driver *)

Import Scripted.


(** Resolution fails for instance [7]: nothing the client does makes the
    object destroy it. *)
Lemma failed_resolution_leaves_instance_unowned_witness :
  IsValid (app no_procs) = false
  /\ GetInstance (app no_procs) = VulkanHandle_default
  /\ destroy_calls
       (events_of (life no_procs
                     [OpGetPhysicalDevices; OpReleaseInstanceOwnership;
                      OpAcquireFirstCompatibleLogicalDevice])) = [].
Proof.
  apply (failed_resolution_leaves_instance_unowned
           (vk no_procs) (env no_procs) "app" ["VK_KHR_surface"] 1%N version
           [OpGetPhysicalDevices; OpReleaseInstanceOwnership;
            OpAcquireFirstCompatibleLogicalDevice] 0%nat build_info 7);
    simpl; tauto.
Defined.

(** After a failed instance creation no enumeration call is made. *)
Lemma invalid_application_enumerates_nothing_witness :
  IsValid (app no_instance) = false
  /\ value_of (GetPhysicalDevices (vk no_instance) (app no_instance) 5%nat)
     = []
  /\ enumeration_calls
       (events_of (GetPhysicalDevices (vk no_instance) (app no_instance)
                     5%nat)) = [].
Proof.
  split; [reflexivity|].
  destruct (invalid_application_enumerates_nothing
              (vk no_instance) (app no_instance) 5%nat eq_refl)
    as (Hv & He & _).
  split; [exact Hv | exact He].
Defined.

(** The three handles the fill call wrote come back as written. *)
Lemma physical_devices_as_enumerated_witness :
  IsValid (app healthy) = true
  /\ value_of (GetPhysicalDevices (vk healthy) (app healthy) 5%nat)
     = [10; 20; 30].
Proof.
  split; [reflexivity|].
  destruct (physical_devices_as_enumerated (vk healthy) (env healthy)
              (app healthy) 5%nat eq_refl) as (_ & _ & _ & _ & H).
  refine (proj2 (H eq_refl _ eq_refl) eq_refl).
  vm_compute; discriminate.
Defined.

(** C7, as the claim states it, fails when the fill call succeeds and
    writes fewer handles than the count call reported.  With a count of
    three and two handles written the result is those two followed by a
    null handle, not the handles the call produced; and when the fill
    call reports zero devices and writes nothing the result is three
    null handles, not the empty sequence. *)
Lemma short_fill_counterexample :
  (IsValid (app short_fill) = true
   /\ events_of (GetPhysicalDevices (vk short_fill) (app short_fill) 5%nat)
      = [EvEnumeratePhysicalDevices 7 0%N None VK_SUCCESS 3%N [];
         EvEnumeratePhysicalDevices 7 3%N (Some 3%nat) VK_SUCCESS 5%N
                                    [10; 20]]
   /\ value_of (GetPhysicalDevices (vk short_fill) (app short_fill) 5%nat)
      = [10; 20; VK_NULL_HANDLE]
   /\ value_of (GetPhysicalDevices (vk short_fill) (app short_fill) 5%nat)
      <> [10; 20])
  /\ (IsValid (app empty_fill) = true
      /\ events_of (GetPhysicalDevices (vk empty_fill) (app empty_fill)
                      5%nat)
         = [EvEnumeratePhysicalDevices 7 0%N None VK_SUCCESS 3%N [];
            EvEnumeratePhysicalDevices 7 3%N (Some 3%nat) VK_SUCCESS 0%N []]
      /\ value_of (GetPhysicalDevices (vk empty_fill) (app empty_fill)
                     5%nat)
         = [VK_NULL_HANDLE; VK_NULL_HANDLE; VK_NULL_HANDLE]
      /\ value_of (GetPhysicalDevices (vk empty_fill) (app empty_fill)
                     5%nat) <> []).
Proof.
  repeat split; discriminate.
Qed.

(** First count three, fill count five, two handles written: three
    elements. *)
Lemma physical_devices_length_is_first_count_witness :
  List.length
    (value_of (GetPhysicalDevices (vk short_fill) (app short_fill) 5%nat))
  = 3%nat.
Proof.
  refine (physical_devices_length_is_first_count
            (vk short_fill) (app short_fill) 5%nat
            7 7 0%N 3%N 3%N 5%N 3%nat [] [10; 20] eq_refl _ _ _).
  - simpl; tauto.
  - simpl; tauto.
  - discriminate.
Defined.

(** With a transfer of ownership the object never destroys instance [7];
    without one, its destruction does, once. *)
Lemma instance_released_at_most_once_witness :
  destroy_calls
    (events_of (life healthy
                  [OpGetInstance; OpReleaseInstanceOwnership;
                   OpGetPhysicalDevices; OpReleaseInstanceOwnership])) = []
  /\ destroy_calls
       (events_of (life healthy [OpAcquireFirstCompatibleLogicalDevice]))
     = [7].
Proof.
  split.
  - destruct (instance_released_at_most_once
                (vk healthy) (env healthy) "app" ["VK_KHR_surface"] 1%N
                version
                [OpGetInstance; OpReleaseInstanceOwnership;
                 OpGetPhysicalDevices; OpReleaseInstanceOwnership] 0%nat)
      as (_ & _ & Hreleased & _).
    exact (Hreleased eq_refl).
  - destruct (instance_released_at_most_once
                (vk healthy) (env healthy) "app" ["VK_KHR_surface"] 1%N
                version [OpAcquireFirstCompatibleLogicalDevice] 0%nat)
      as (_ & _ & _ & _ & Hkept).
    refine (Hkept eq_refl _ eq_refl).
    vm_compute; discriminate.
Defined.

(** C5, as the claim states it, fails on objects that hold no instance.
    When instance creation gives the handle [7] and proc-address
    resolution fails, ownership is never transferred and the whole life
    of the object contains no [DestroyInstance] call, not one; the same
    holds when instance creation itself fails, and when it reports
    success and leaves the null handle, the object being valid then. *)
Lemma release_without_transfer_counterexample :
  (In (EvCreateInstance build_info VK_SUCCESS 7) (events_of (build no_procs))
   /\ existsb is_release [] = false
   /\ destroy_calls (events_of (life no_procs [])) = []
   /\ List.length (destroy_calls (events_of (life no_procs []))) <> 1%nat)
  /\ (IsValid (app no_instance) = false
      /\ List.length (destroy_calls (events_of (life no_instance [])))
         <> 1%nat)
  /\ (IsValid (app null_instance) = true
      /\ handle_ (GetInstance (app null_instance)) = VK_NULL_HANDLE
      /\ List.length (destroy_calls (events_of (life null_instance [])))
         <> 1%nat).
Proof.
  repeat split; try (simpl; tauto); discriminate.
Qed.

(** C8, as the claim states it, fails for a name that holds a NUL
    character: with diagnostics off the recording driver receives one
    create info, whose only extension name is ["ab"] and not the name
    requested. *)
Lemma cut_name_counterexample :
  IsDebuggingEnabled Recorder.env = false
  /\ Recorder.received [Recorder.cut_name] = [["ab"]]
  /\ Recorder.received [Recorder.cut_name] <> [[Recorder.cut_name]].
Proof.
  repeat split. discriminate.
Qed.

(** Everything succeeds on the healthy driver, so the object is valid;
    on the driver whose instance creation fails it is not. *)
Lemma construction_valid_iff_both_succeed_witness :
  IsValid (app healthy) = true /\ IsValid (app no_instance) = false.
Proof.
  split.
  - apply (proj2 (proj1 (construction_valid_iff_both_succeed
                           (vk healthy) (env healthy) "app"
                           ["VK_KHR_surface"] 1%N version 0%nat))).
    split; reflexivity.
  - apply (proj2 (proj1 (proj2 (construction_valid_iff_both_succeed
                                  (vk no_instance) (env no_instance) "app"
                                  ["VK_KHR_surface"] 1%N version 0%nat)))).
    left. discriminate.
Defined.

(** On the healthy driver only handle [20] is accepted, and its device is
    the one acquired. *)
Lemma acquire_returns_first_valid_device_witness :
  value_of (AcquireFirstCompatibleLogicalDevice (vk healthy) (env healthy)
              (app healthy) 5%nat)
  = Some {| device_handle := 20; device_valid := true |}.
Proof.
  exact (proj2 (proj2 (proj2 (acquire_returns_first_valid_device
                                (vk healthy) (env healthy) (app healthy)
                                5%nat)))
           (fun h => h =? 20) (fun h w' => eq_refl)).
Defined.

(** With diagnostics off a name without NUL reaches the driver as it
    is. *)
Lemma debug_extension_appended_iff_diagnostics_witness :
  ppEnabledExtensionNames
    (create_info_of Recorder.env "app" ["VK_KHR_surface"] 1%N 1%N [])
  = ["VK_KHR_surface"].
Proof.
  destruct (debug_extension_appended_iff_diagnostics
              Recorder.vk Recorder.env "app" ["VK_KHR_surface"] 1%N 1%N [])
    as (_ & _ & _ & _ & _ & Hclean & _).
  apply Hclean; [reflexivity|].
  constructor; [reflexivity | constructor].
Defined.

(** ** The calls each member function makes *)

Section Protocol.

Context {W : Type}.
Variable vk : VulkanProcTable W.
Variable env : Collaborators W.

Lemma enumeration_requests_app (t1 t2 : list Event) :
  enumeration_requests (t1 ++ t2)
  = enumeration_requests t1 ++ enumeration_requests t2.
Proof.
  induction t1 as [|e t1 IH]; simpl; [reflexivity|].
  destruct e; simpl; rewrite ?IH; reflexivity.
Qed.

Lemma device_deletions_app (t1 t2 : list Event) :
  device_deletions (t1 ++ t2) = device_deletions t1 ++ device_deletions t2.
Proof.
  induction t1 as [|e t1 IH]; simpl; [reflexivity|].
  destruct e; simpl; rewrite ?IH; reflexivity.
Qed.

Lemma create_calls_app (t1 t2 : list Event) :
  create_calls (t1 ++ t2) = create_calls t1 ++ create_calls t2.
Proof.
  induction t1 as [|e t1 IH]; simpl; [reflexivity|].
  destruct e; simpl; rewrite ?IH; reflexivity.
Qed.

Lemma setup_calls_app (t1 t2 : list Event) :
  setup_calls (t1 ++ t2) = setup_calls t1 ++ setup_calls t2.
Proof.
  induction t1 as [|e t1 IH]; simpl; [reflexivity|].
  destruct e; simpl; rewrite ?IH; reflexivity.
Qed.

(** The loop only constructs and deletes logical devices. *)
Lemma first_compatible_only_devices (handles : list VkPhysicalDevice)
    (w : W) :
  let tr := events_of (first_compatible env handles w) in
  enumeration_requests tr = [] /\ create_calls tr = []
  /\ setup_calls tr = [].
Proof.
  revert w; induction handles as [|h rest IH]; intros w.
  - repeat split.
  - cbn zeta in *. cbn [first_compatible]. unfold bind, call.
    destruct (VulkanDevice_new env h w) as [[] w1]; [repeat split|].
    destruct (VulkanDevice_delete env h w1) as [u w2].
    specialize (IH w2).
    destruct (first_compatible env rest w2) as [[v w3] t].
    exact IH.
Qed.

(** Every device the loop constructs is deleted or returned. *)
Lemma first_compatible_accounts (handles : list VkPhysicalDevice) (w : W) :
  let r := first_compatible env handles w in
  device_deletions (events_of r)
  = map fst (filter is_rejected (device_constructions (events_of r)))
  /\ List.length (device_constructions (events_of r))
     = (List.length (device_deletions (events_of r))
        + match value_of r with Some _ => 1 | None => 0 end)%nat.
Proof.
  revert w; induction handles as [|h rest IH]; intros w.
  - split; reflexivity.
  - cbn zeta in *. cbn [first_compatible]. unfold bind, call.
    destruct (VulkanDevice_new env h w) as [[] w1]; [split; reflexivity|].
    destruct (VulkanDevice_delete env h w1) as [u w2].
    specialize (IH w2).
    destruct (first_compatible env rest w2) as [[v w3] t].
    unfold events_of, value_of in *. cbn [fst snd] in *.
    simpl. destruct IH as [Hd Hl]. split.
    + now rewrite Hd.
    + now rewrite Hl.
Qed.

Lemma enumerated_only_enumerates i tr devices :
  enumerated i tr devices ->
  forallb (fun e => is_EnumeratePhysicalDevices e || is_EvLog e) tr = true.
Proof. destruct 1; reflexivity. Qed.

(** Split what a log records about the driver into its calls. *)
Ltac pin_calls :=
  repeat match goal with
    | H : performed _ _ _ (_ :: _) _ |- _ => inversion H; subst; clear H
    | H : performed _ _ _ [] _ |- _ => inversion H; subst; clear H
    end;
  repeat match goal with
    | E : CreateInstance _ _ _ = _ |- _ =>
        rewrite E; clear E; cbn [fst snd]
    | E : SetupInstanceProcAddresses _ _ _ = _ |- _ =>
        rewrite E; clear E; cbn [fst snd]
    | E : VulkanDebugReport_new _ _ _ = _ |- _ =>
        rewrite E; clear E; cbn [fst snd]
    end.

(** X1. The constructor calls [CreateInstance] of the driver exactly
    once, on the create info it built and in the driver state it was
    entered with; that call is the first of its log.  It calls
    [SetupInstanceProcAddresses] only when [CreateInstance] returned
    [VK_SUCCESS], once, on the handle returned and in the state that call
    left, and the object is valid exactly when both succeeded. *)
Theorem constructor_call_protocol
    (application_name : string) (enabled_extensions : list string)
    (application_version api_version : uint32) (w : W) :
  let r := VulkanApplication_new vk env application_name enabled_extensions
             application_version api_version w in
  let info := create_info_of env application_name enabled_extensions
                application_version api_version w in
  let created := CreateInstance vk info w in
  let rc := fst (fst created) in
  let i := snd (fst created) in
  let resolved := SetupInstanceProcAddresses vk i (snd created) in
  performed vk env w (events_of r) (state_of r)
  /\ (exists rest, events_of r = EvCreateInstance info rc i :: rest)
  /\ create_calls (events_of r) = [(info, rc, i)]
  /\ setup_calls (events_of r)
     = (if rc =? VK_SUCCESS then [(i, fst resolved)] else [])
  /\ IsValid (value_of r) = (rc =? VK_SUCCESS) && fst resolved.
Proof.
  intros r info created rc i resolved.
  pose proof (VulkanApplication_new_constructed vk env application_name
                enabled_extensions application_version api_version w) as H.
  pose proof (faithful_VulkanApplication_new vk env application_name
                enabled_extensions application_version api_version w) as P.
  cbv zeta in H. fold r in H, P. split; [exact P|]. revert H P.
  unfold resolved, i, rc, created, info, create_info_of, IsValid.
  generalize (events_of r) (value_of r) (state_of r). intros tr this w' H P.
  destruct H as [rc' i' Hrc | i' | i' tr report Ha]; pin_calls.
  - apply Z.eqb_neq in Hrc. rewrite Hrc.
    repeat split. eexists; reflexivity.
  - repeat split. eexists; reflexivity.
  - split; [eexists; reflexivity|]. destruct Ha; repeat split.
Qed.

(** X2. The constructor never enumerates physical devices, never destroys
    an instance and never constructs or deletes a logical device. *)
Theorem constructor_footprint
    (application_name : string) (enabled_extensions : list string)
    (application_version api_version : uint32) (w : W) :
  let r := VulkanApplication_new vk env application_name enabled_extensions
             application_version api_version w in
  enumeration_requests (events_of r) = []
  /\ destroy_calls (events_of r) = []
  /\ device_constructions (events_of r) = []
  /\ device_deletions (events_of r) = [].
Proof.
  intros r.
  pose proof (VulkanApplication_new_constructed vk env application_name
                enabled_extensions application_version api_version w) as H.
  cbv zeta in H. fold r in H. revert H.
  generalize (events_of r) (value_of r). intros tr this H.
  destruct H as [rc i Hrc | i | i tr report Ha]; try (repeat split; fail).
  destruct Ha; repeat split.
Qed.

(** X3. The constructor calls the [VulkanDebugReport] constructor exactly
    when diagnostics are wanted and the object becomes valid, once, on
    the instance [CreateInstance] returned and in the driver state
    proc-address resolution left; the object retains the report exactly
    when that constructor answers valid. *)
Theorem debug_report_attempted_iff_wanted_and_valid
    (application_name : string) (enabled_extensions : list string)
    (application_version api_version : uint32) (w : W) :
  let r := VulkanApplication_new vk env application_name enabled_extensions
             application_version api_version w in
  let created :=
    CreateInstance vk
      (create_info_of env application_name enabled_extensions
                      application_version api_version w) w in
  let i := snd (fst created) in
  let resolved := SetupInstanceProcAddresses vk i (snd created) in
  let attempted := VulkanDebugReport_new env i (snd resolved) in
  let wanted := diagnostics_wanted env w && IsValid (value_of r) in
  performed vk env w (events_of r) (state_of r)
  /\ report_constructions (events_of r)
     = (if wanted then [(i, fst attempted)] else [])
  /\ has_report (value_of r) = wanted && fst attempted
  /\ (forall report,
         debug_report_ (value_of r) = Some report ->
         report = {| report_instance := i; report_valid := true |}).
Proof.
  intros r created i resolved attempted wanted.
  pose proof (VulkanApplication_new_constructed vk env application_name
                enabled_extensions application_version api_version w) as H.
  pose proof (faithful_VulkanApplication_new vk env application_name
                enabled_extensions application_version api_version w) as P.
  cbv zeta in H. fold r in H, P. split; [exact P|]. revert H P.
  unfold wanted, attempted, resolved, i, created, create_info_of, IsValid,
    has_report.
  generalize (events_of r) (value_of r) (state_of r). intros tr this w' H P.
  destruct H as [rc' i' Hrc | i' | i' tr report Ha]; pin_calls;
    cbn [valid_ debug_report_].
  - rewrite andb_false_r. repeat split. discriminate.
  - rewrite andb_false_r. repeat split. discriminate.
  - rewrite andb_true_r.
    inversion Ha as [Hd | Hd | Hd]; subst; pin_calls;
      repeat split; try discriminate.
    intros report' [= <-]. reflexivity.
Qed.

(** X4. The create info [CreateInstance] is called with names the
    application by the C string of the name passed (the name itself when
    it holds no NUL character) and by the version passed, the engine as
    "FlutterEngine" at version 1.0.0, the API version that
    [GetAPIVersion()] reports afterwards and the layers of
    [InstanceLayersToEnable]; each count is the length of its list
    whenever that length fits in 32 bits. *)
Theorem create_info_describes_the_application
    (application_name : string) (enabled_extensions : list string)
    (application_version api_version : uint32) (w : W) :
  let r := VulkanApplication_new vk env application_name enabled_extensions
             application_version api_version w in
  let info := create_info_of env application_name enabled_extensions
                application_version api_version w in
  let created := CreateInstance vk info w in
  (exists rest,
      events_of r
      = EvCreateInstance info (fst (fst created)) (snd (fst created))
        :: rest)
  /\ performed vk env w (events_of r) (state_of r)
  /\ pApplicationName (pApplicationInfo info) = c_str application_name
  /\ (c_str application_name = application_name ->
      pApplicationName (pApplicationInfo info) = application_name)
  /\ applicationVersion (pApplicationInfo info) = application_version
  /\ apiVersion (pApplicationInfo info) = GetAPIVersion (value_of r)
  /\ pEngineName (pApplicationInfo info) = "FlutterEngine"
  /\ engineVersion (pApplicationInfo info) = 4194304%N
  /\ ppEnabledLayerNames info = map c_str (InstanceLayersToEnable env w)
  /\ ((N.of_nat (List.length (ppEnabledLayerNames info)) < 2 ^ 32)%N ->
      enabledLayerCount info
      = N.of_nat (List.length (ppEnabledLayerNames info)))
  /\ ((N.of_nat (List.length (ppEnabledExtensionNames info)) < 2 ^ 32)%N ->
      enabledExtensionCount info
      = N.of_nat (List.length (ppEnabledExtensionNames info))).
Proof.
  intros r info created.
  destruct (VulkanApplication_new_answers vk env application_name
              enabled_extensions application_version api_version w)
    as (_ & _ & Hfirst).
  split; [exact Hfirst|].
  split; [apply faithful_VulkanApplication_new|].
  assert (Hapi : GetAPIVersion (value_of r) = api_version).
  { pose proof (VulkanApplication_new_constructed vk env application_name
                  enabled_extensions application_version api_version w)
      as H.
    cbv zeta in H. fold r in H. destruct H; reflexivity. }
  rewrite Hapi. unfold info, create_info_of.
  cbn [pApplicationInfo make_create_info make_application_info
       pApplicationName applicationVersion apiVersion pEngineName
       engineVersion ppEnabledLayerNames ppEnabledExtensionNames
       enabledLayerCount enabledExtensionCount].
  unfold static_cast_uint32. rewrite !length_map.
  repeat split; try (intros Hlt; now apply N.mod_small).
  intros ->. reflexivity.
Qed.


Lemma enumerated_no_other_call i tr devices :
  enumerated i tr devices ->
  device_deletions tr = [] /\ create_calls tr = [] /\ setup_calls tr = [].
Proof. destruct 1; repeat split. Qed.

Lemma GetPhysicalDevices_no_other_call (this : VulkanApplication W) (w : W) :
  let tr := events_of (GetPhysicalDevices vk this w) in
  device_deletions tr = [] /\ create_calls tr = [] /\ setup_calls tr = [].
Proof.
  cbv zeta. destruct (IsValid this) eqn:H.
  - eapply enumerated_no_other_call, GetPhysicalDevices_enumerated, H.
  - rewrite GetPhysicalDevices_invalid by exact H. repeat split.
Qed.

(** X5. On a valid object [GetPhysicalDevices()] first calls
    [EnumeratePhysicalDevices] of the driver with a null buffer and a
    count of zero.  It makes the fill call only when that call returned
    [VK_SUCCESS] with a nonzero count, and then passes that count
    together with a buffer of exactly that many slots, in the driver
    state the first call left; both calls are on the instance the object
    holds, and the driver is left as the last of them left it. *)
Theorem enumeration_call_protocol (this : VulkanApplication W) (w : W) :
  IsValid this = true ->
  let r := GetPhysicalDevices vk this w in
  let h := handle_ (GetInstance this) in
  let counted := EnumeratePhysicalDevices vk h 0%N None w in
  let rc := fst (fst (fst counted)) in
  let n := snd (fst (fst counted)) in
  let filled :=
    EnumeratePhysicalDevices vk h n (Some (N.to_nat n)) (snd counted) in
  let fill_made := (rc =? VK_SUCCESS) && negb (n =? 0)%N in
  performed vk env w (events_of r) (state_of r)
  /\ (exists rest,
         events_of r
         = EvEnumeratePhysicalDevices h 0%N None rc n (snd (fst counted))
           :: rest)
  /\ enumeration_requests (events_of r)
     = (h, 0%N, None)
       :: (if fill_made then [(h, n, Some (N.to_nat n))] else [])
  /\ state_of r = (if fill_made then snd filled else snd counted).
Proof.
  intros Hvalid r h counted rc n filled fill_made.
  split; [apply faithful_GetPhysicalDevices|].
  unfold r, fill_made, filled, rc, n, counted, h.
  unfold GetPhysicalDevices, GetInstance. rewrite Hvalid. cbn [negb].
  unfold enumerate, VK_CALL_LOG_ERROR, bind, call, emit, ret, events_of,
    state_of.
  destruct (EnumeratePhysicalDevices vk (handle_ (instance_ this)) 0%N None
              w) as [[[c1 m] wr1] w1].
  cbn [fst snd].
  destruct (c1 =? VK_SUCCESS); cbn [negb andb];
    [| repeat split; eexists; reflexivity].
  destruct (m =? 0)%N; cbn [negb];
    [repeat split; eexists; reflexivity|].
  rewrite repeat_length.
  destruct (EnumeratePhysicalDevices vk (handle_ (instance_ this)) m
              (Some (N.to_nat m)) w1) as [[[c2 m'] wr2] w2].
  cbn [fst snd].
  destruct (negb (c2 =? VK_SUCCESS)); repeat split; eexists; reflexivity.
Qed.

(** X6. Whatever the state of the object, [GetPhysicalDevices()] makes no
    call other than [EnumeratePhysicalDevices] and logging: it creates,
    sets up and destroys nothing and touches no logical device. *)
Theorem enumeration_footprint (this : VulkanApplication W) (w : W) :
  let tr := events_of (GetPhysicalDevices vk this w) in
  forallb (fun e => is_EnumeratePhysicalDevices e || is_EvLog e) tr = true
  /\ destroy_calls tr = []
  /\ create_calls tr = []
  /\ setup_calls tr = []
  /\ device_constructions tr = []
  /\ device_deletions tr = [].
Proof.
  cbv zeta.
  destruct (GetPhysicalDevices_no_other_call this w) as (Hd & Hc & Hs).
  rewrite Hd, Hc, Hs, GetPhysicalDevices_no_destroy,
    GetPhysicalDevices_no_device.
  repeat split.
  destruct (IsValid this) eqn:H.
  - eapply enumerated_only_enumerates, GetPhysicalDevices_enumerated, H.
  - rewrite GetPhysicalDevices_invalid by exact H. reflexivity.
Qed.

(** X7. On an invalid object [AcquireFirstCompatibleLogicalDevice()]
    returns none after logging that no device could be acquired: it
    enumerates nothing, constructs no logical device and leaves the
    driver as it was. *)
Theorem acquire_on_invalid_application (this : VulkanApplication W) (w : W) :
  IsValid this = false ->
  AcquireFirstCompatibleLogicalDevice vk env this w
  = (None, w, [EvLog "Could not acquire compatible logical device."]).
Proof.
  intros H. unfold AcquireFirstCompatibleLogicalDevice, bind.
  rewrite (GetPhysicalDevices_invalid vk this w H). reflexivity.
Qed.

(** X8. [AcquireFirstCompatibleLogicalDevice()] deletes exactly the
    logical devices that reported invalid, so every device it constructs
    is either deleted or the one returned. *)
Theorem acquire_accounts_for_every_device
    (this : VulkanApplication W) (w : W) :
  let r := AcquireFirstCompatibleLogicalDevice vk env this w in
  device_deletions (events_of r)
  = map fst (filter is_rejected (device_constructions (events_of r)))
  /\ List.length (device_constructions (events_of r))
     = (List.length (device_deletions (events_of r))
        + match value_of r with Some _ => 1 | None => 0 end)%nat.
Proof.
  intros r. unfold r, AcquireFirstCompatibleLogicalDevice.
  rewrite events_bind, value_bind, device_deletions_app,
    device_constructions_app, GetPhysicalDevices_no_device.
  destruct (GetPhysicalDevices_no_other_call this w) as (-> & _ & _).
  cbn [app]. apply first_compatible_accounts.
Qed.

(** X9. Validity is fixed at construction: no sequence of public calls
    changes [IsValid()] or the retained debug report, and without a
    transfer of ownership [GetInstance()] does not change either. *)
Theorem validity_is_fixed_at_construction
    (this : VulkanApplication W) (ops : list Op) (w : W) :
  let this' := value_of (run vk env ops this w) in
  IsValid this' = IsValid this
  /\ debug_report_ this' = debug_report_ this
  /\ (existsb is_release ops = false -> GetInstance this' = GetInstance this).
Proof.
  destruct (run_frame vk env ops this w) as (_ & _ & Hv & Hr & Hi).
  cbv zeta. unfold IsValid, GetInstance. repeat split; try assumption.
  intros Hno. rewrite Hi, Hno. reflexivity.
Qed.

(** X10. On a valid object the sequence returned by
    [GetPhysicalDevices()] is empty only when an enumeration call failed
    or the enumeration reported zero devices. *)
Theorem no_devices_iff_failed_or_zero (this : VulkanApplication W) (w : W) :
  IsValid this = true ->
  let r := GetPhysicalDevices vk this w in
  value_of r = []
  <-> enumeration_failed (events_of r) \/ zero_devices_reported (events_of r).
Proof.
  intros Hvalid r.
  pose proof (GetPhysicalDevices_enumerated vk this w Hvalid) as H.
  fold r in H. revert H. generalize (events_of r) (value_of r).
  intros tr devices H.
  unfold enumeration_failed, zero_devices_reported.
  destruct H as [rc n wr Hrc | wr | n wr rc n' written Hn Hrc
                | n wr n' written Hn].
  - split; [intros _ | reflexivity]. left.
    exists (handle_ (instance_ this)), 0%N, None, rc, n, wr.
    split; [assumption | now left].
  - split; [intros _ | reflexivity]. right.
    exists (handle_ (instance_ this)), 0%N, wr. now left.
  - split; [intros _ | reflexivity]. left.
    exists (handle_ (instance_ this)), n, (Some (N.to_nat n)), rc, n', written.
    split; [assumption | right; now left].
  - split.
    + intros Hnil. apply (f_equal (@List.length VkPhysicalDevice)) in Hnil.
      rewrite store_handles_length, repeat_length in Hnil.
      simpl in Hnil. lia.
    + intros [(i & c & cap & rc & m & wr' & Hrc & [Hin | [Hin | []]])
             | (i & c & wr' & [Hin | [Hin | []]])].
      all: try discriminate Hin; injection Hin; intros; subst; congruence.
Qed.

(** X11. [AcquireFirstCompatibleLogicalDevice()] gives the driver the
    enumeration calls of [GetPhysicalDevices()] and no others; it creates,
    sets up and destroys no instance. *)
Theorem acquire_footprint (this : VulkanApplication W) (w : W) :
  let tr := events_of (AcquireFirstCompatibleLogicalDevice vk env this w) in
  enumeration_requests tr
  = enumeration_requests (events_of (GetPhysicalDevices vk this w))
  /\ destroy_calls tr = []
  /\ create_calls tr = []
  /\ setup_calls tr = [].
Proof.
  cbv zeta.
  rewrite AcquireFirstCompatibleLogicalDevice_no_destroy.
  unfold AcquireFirstCompatibleLogicalDevice.
  rewrite events_bind, enumeration_requests_app, create_calls_app,
    setup_calls_app.
  destruct (GetPhysicalDevices_no_other_call this w) as (_ & -> & ->).
  destruct (first_compatible_only_devices
              (value_of (GetPhysicalDevices vk this w))
              (state_of (GetPhysicalDevices vk this w))) as (-> & -> & ->).
  rewrite app_nil_r. repeat split.
Qed.

(** X12. A logical device returned by
    [AcquireFirstCompatibleLogicalDevice()] reports valid and wraps one of
    the handles of [GetPhysicalDevices()]; only a valid object returns
    one. *)
Theorem acquired_device_is_enumerated_and_valid
    (this : VulkanApplication W) (w : W) (d : VulkanDevice) :
  value_of (AcquireFirstCompatibleLogicalDevice vk env this w) = Some d ->
  IsValid this = true
  /\ device_valid d = true
  /\ In (device_handle d) (value_of (GetPhysicalDevices vk this w)).
Proof.
  unfold AcquireFirstCompatibleLogicalDevice. rewrite value_bind.
  destruct (IsValid this) eqn:Hvalid.
  - intros Hsome.
    destruct (first_compatible_scan env
                (value_of (GetPhysicalDevices vk this w))
                (state_of (GetPhysicalDevices vk this w)))
      as [(before & h & after & Hsplit & _ & Hv) | [_ Hv]];
      rewrite Hv in Hsome; [|discriminate].
    injection Hsome as <-. cbn [device_valid device_handle].
    repeat split. rewrite Hsplit. apply in_or_app. right. now left.
  - rewrite (GetPhysicalDevices_invalid vk this w Hvalid). discriminate.
Qed.

End Protocol.

(** ** The calls on the scripted driver *)

(** The healthy driver is asked for the count, then for three handles,
    and has then answered two more calls than before. *)
Lemma enumeration_call_protocol_witness :
  enumeration_requests
    (events_of (GetPhysicalDevices (vk healthy) (app healthy) 5%nat))
  = [(7, 0%N, None); (7, 3%N, Some 3%nat)]
  /\ state_of (GetPhysicalDevices (vk healthy) (app healthy) 5%nat) = 7%nat.
Proof.
  destruct (enumeration_call_protocol (vk healthy) (env healthy)
              (app healthy) 5%nat eq_refl) as (_ & _ & Hrequests & Hstate).
  split; [exact Hrequests | exact Hstate].
Defined.

(** After a failed instance creation nothing can be acquired. *)
Lemma acquire_on_invalid_application_witness :
  AcquireFirstCompatibleLogicalDevice (vk no_instance) (env no_instance)
    (app no_instance) 5%nat
  = (None, 5%nat, [EvLog "Could not acquire compatible logical device."]).
Proof.
  exact (acquire_on_invalid_application (vk no_instance) (env no_instance)
           (app no_instance) 5%nat eq_refl).
Defined.

(** The healthy driver reports three devices: no call failed and the
    count was not zero. *)
Lemma no_devices_iff_failed_or_zero_witness :
  ~ (enumeration_failed
       (events_of (GetPhysicalDevices (vk healthy) (app healthy) 5%nat))
     \/ zero_devices_reported
          (events_of (GetPhysicalDevices (vk healthy) (app healthy) 5%nat))).
Proof.
  intros H.
  apply (no_devices_iff_failed_or_zero (vk healthy) (app healthy) 5%nat
           eq_refl) in H.
  discriminate H.
Defined.

(** The device acquired from the healthy driver wraps the enumerated
    handle [20]. *)
Lemma acquired_device_is_enumerated_and_valid_witness :
  In 20 (value_of (GetPhysicalDevices (vk healthy) (app healthy) 5%nat)).
Proof.
  exact (proj2 (proj2 (acquired_device_is_enumerated_and_valid
                         (vk healthy) (env healthy) (app healthy) 5%nat
                         {| device_handle := 20; device_valid := true |}
                         eq_refl))).
Defined.

(** Two extension names are passed, and counted as two. *)
Lemma create_info_describes_the_application_witness :
  enabledExtensionCount build_info = 2%N.
Proof.
  destruct (create_info_describes_the_application
              (vk healthy) (env healthy) "app" ["VK_KHR_surface"] 1%N
              version 0%nat)
    as (_ & _ & _ & _ & _ & _ & _ & _ & _ & _ & Hext).
  exact (Hext eq_refl).
Defined.

(** Enumerating and asking for validity leave the instance in place. *)
Lemma validity_is_fixed_at_construction_witness :
  GetInstance
    (value_of (run (vk healthy) (env healthy)
                 [OpGetPhysicalDevices; OpIsValid] (app healthy) 5%nat))
  = GetInstance (app healthy).
Proof.
  exact (proj2 (proj2 (validity_is_fixed_at_construction
                         (vk healthy) (env healthy) (app healthy)
                         [OpGetPhysicalDevices; OpIsValid] 5%nat)) eq_refl).
Defined.
